(** * tools/parse_anim_dat.py: the animation package parser

    A shallow embedding of [parse_dat] and a verification of the decoder
    document against it.  The parser is a single Python function: a cursor
    ([offset]) walking a byte buffer through three nested [for] loops, with a
    running maximum, four [print] calls and Python exceptions on short
    input.  It is embedded as a state-and-exception monad over the three
    mutable things of the function: [offset], [max_sprite_idx] and the
    console. *)

From Stdlib Require Import ZArith List Lia Bool String HexString DecimalString.
From Stdlib.Strings Require Import Byte.
Import ListNotations.
Open Scope Z_scope.

(** ** Python values used by the parser *)

(** The two exceptions the function can raise: [IndexError] from indexing a
    [bytes] object out of range, and [struct.error] from [struct.unpack]
    given a buffer that is not of the size the format requires. *)
Inductive exn : Type :=
  | IndexError
  | StructError (needed : nat).

Module PyBytes.

Definition bytes := list byte.

(** The integer a [bytes] object yields for one of its elements. *)
Definition u8 (b : byte) : Z := Z.of_N (Byte.to_N b).

(** [data[i]] for [0 <= i]. *)
Definition index (data : bytes) (i : nat) : exn + Z :=
  match nth_error data i with
  | Some b => inr (u8 b)
  | None => inl IndexError
  end.

(** [data[a:b]] for [0 <= a <= b]: a slice never raises, it is cut at the
    end of the buffer. *)
Definition slice (data : bytes) (a b : nat) : bytes :=
  firstn (b - a) (skipn a data).

End PyBytes.

Module PyStruct.
Import PyBytes.

(** The three format strings of the parser: ['>H'], ['>I'] and ['b']. *)
Inductive format : Type := BE_H | BE_I | SByte.

Definition calcsize (f : format) : nat :=
  match f with BE_H => 2%nat | BE_I => 4%nat | SByte => 1%nat end.

(** Most significant byte first. *)
Definition big_endian (buf : bytes) : Z :=
  fold_left (fun acc b => acc * 256 + u8 b) buf 0.

Definition signed8 (v : Z) : Z := if v <? 128 then v else v - 256.

(** [struct.unpack(f, buf)[0]]. *)
Definition unpack (f : format) (buf : bytes) : exn + Z :=
  if Nat.eqb (List.length buf) (calcsize f) then
    match f with
    | BE_H | BE_I => inr (big_endian buf)
    | SByte => inr (signed8 (big_endian buf))
    end
  else inl (StructError (calcsize f)).

End PyStruct.

(** [str(n)] and [hex(n)] of an integer. *)
Definition py_str (n : Z) : string := NilZero.string_of_int (Z.to_int n).
Definition py_hex (n : Z) : string := HexString.of_Z n.

(** ** The decoded document *)

Record Rect := mkRect { rect_x : Z; rect_y : Z; rect_w : Z; rect_h : Z }.

Record Layer := mkLayer {
  rect : Rect;
  sprite_index : Z;
  x_offset : Z;
  y_offset : Z;
  transform : Z;
  packed_raw : string
}.

Record Frame := mkFrame {
  frame_id : nat;
  layers : list Layer;
  delay : Z
}.

Record Animation := mkAnimation {
  anim_id : nat;
  frames : list Frame
}.

(** The [result] dictionary; the key ['num_packages'] is set on one path
    only. *)
Record Package := mkPackage {
  package_id : Z;
  animations : list Animation;
  num_packages : option Z;
  num_animations : Z;
  max_sprite_index : Z
}.

(** ** The state of a run *)

Record state := mkState {
  offset : nat;
  max_sprite_idx : Z;
  stdout : list string
}.

(** A run either returns with the state it reached, or raises; what was
    printed before the exception stays printed. *)
Inductive outcome (A : Type) : Type :=
  | Return (a : A) (s : state)
  | Raise (e : exn) (out : list string).
Arguments Return {A} a s.
Arguments Raise {A} e out.

Definition M (A : Type) : Type := state -> outcome A.

Definition ret {A} (a : A) : M A := fun s => Return a s.

Definition bind {A B} (m : M A) (f : A -> M B) : M B :=
  fun s =>
    match m s with
    | Return a s' => f a s'
    | Raise e out => Raise e out
    end.

Notation "x <- m ;; k" := (bind m (fun x => k))
  (at level 61, m at next level, right associativity).
Notation "m ;;; k" := (bind m (fun _ => k))
  (at level 61, right associativity).

Definition lift {A} (r : exn + A) : M A :=
  fun s => match r with inr a => Return a s | inl e => Raise e (stdout s) end.

Definition get_offset : M nat := fun s => Return (offset s) s.

Definition set_offset (o : nat) : M unit :=
  fun s => Return tt (mkState o (max_sprite_idx s) (stdout s)).

(** [offset += k] *)
Definition advance (k : nat) : M unit :=
  fun s => Return tt (mkState (offset s + k) (max_sprite_idx s) (stdout s)).

Definition get_max : M Z := fun s => Return (max_sprite_idx s) s.

Definition set_max (v : Z) : M unit :=
  fun s => Return tt (mkState (offset s) v (stdout s)).

Definition print (line : string) : M unit :=
  fun s => Return tt (mkState (offset s) (max_sprite_idx s) (stdout s ++ [line])).

(** [for i in range(n)], from index [i0]; the values of the bodies are what
    the loop appends, in order. *)
Fixpoint for_range {A} (n : nat) (i0 : nat) (body : nat -> M A) : M (list A) :=
  match n with
  | O => ret []
  | S n' =>
      a <- body i0 ;;
      rest <- for_range n' (S i0) body ;;
      ret (a :: rest)
  end.

(** ** The parser *)

Section Parser.
Import PyBytes PyStruct.

(** The contents of the file, read once before the walk. *)
Variable data : bytes.

(** [data[offset]] *)
Definition byte_at_offset : M Z :=
  o <- get_offset ;; lift (index data o).

(** [struct.unpack(f, data[offset:offset+k])[0]] *)
Definition unpack_at_offset (f : format) (k : nat) : M Z :=
  o <- get_offset ;; lift (unpack f (slice data o (o + k))).

(** Lines 72-104: one pass of the layer loop. *)
Definition parse_layer (layer_id : nat) : M Layer :=
  rx <- unpack_at_offset BE_H 2 ;;
  advance 2 ;;;
  ry <- unpack_at_offset BE_H 2 ;;
  advance 2 ;;;
  rw <- unpack_at_offset BE_H 2 ;;
  advance 2 ;;;
  rh <- unpack_at_offset BE_H 2 ;;
  advance 2 ;;;
  packed <- unpack_at_offset BE_I 4 ;;
  advance 4 ;;;
  let sprite_index := Z.land (Z.shiftr packed 23) 0x1FF in
  let x_offset := Z.land (Z.shiftr packed 13) 0x3FF - 512 in
  let y_offset := Z.land (Z.shiftr packed 3) 0x3FF - 512 in
  let transform := Z.land packed 0x7 in
  cur <- get_max ;;
  (if sprite_index >? cur then set_max sprite_index else ret tt) ;;;
  ret (mkLayer (mkRect rx ry rw rh) sprite_index x_offset y_offset
               transform (py_hex packed)).

(** Lines 57-106: one pass of the frame loop. *)
Definition parse_frame (frame_id : nat) : M Frame :=
  delay <- unpack_at_offset SByte 1 ;;
  advance 1 ;;;
  num_layers <- byte_at_offset ;;
  advance 1 ;;;
  layers <- for_range (Z.to_nat num_layers) 0 parse_layer ;;
  ret (mkFrame frame_id layers delay).

(** Lines 48-108: one pass of the animation loop. *)
Definition parse_animation (anim_id : nat) : M Animation :=
  num_frames <- byte_at_offset ;;
  advance 1 ;;;
  frames <- for_range (Z.to_nat num_frames) 0 parse_frame ;;
  ret (mkAnimation anim_id frames).

(** Lines 34-44: the header. *)
Definition parse_header (package_id : Z) : M (option Z * Z) :=
  num_packages <-
    (if package_id =? 0 then
       num_packages <- byte_at_offset ;;
       advance 1 ;;;
       print ("Num packages: " ++ py_str num_packages) ;;;
       ret (Some num_packages)
     else ret None) ;;
  num_animations <- unpack_at_offset BE_H 2 ;;
  advance 2 ;;;
  print ("Num animations: " ++ py_str num_animations) ;;;
  ret (num_packages, num_animations).

Definition parse_dat (package_id : Z) : M Package :=
  set_offset 0 ;;;
  hdr <- parse_header package_id ;;
  set_max 0 ;;;
  animations <- for_range (Z.to_nat (snd hdr)) 0 parse_animation ;;
  max_sprite_idx <- get_max ;;
  print ("Max sprite index: " ++ py_str max_sprite_idx) ;;;
  o <- get_offset ;;
  print ("Bytes read: " ++ py_str (Z.of_nat o)
         ++ ", File size: " ++ py_str (Z.of_nat (List.length data))) ;;;
  ret (mkPackage package_id animations (fst hdr) (snd hdr) max_sprite_idx).

End Parser.

(** The state a call starts from: nothing read, and whatever the console
    already shows. *)
Definition init (console : list string) : state := mkState 0 0 console.


(** Every layer of a package, in file order. *)
Definition all_layers (r : Package) : list Layer :=
  flat_map (fun a => flat_map layers (frames a)) (animations r).

Definition all_frames (r : Package) : list Frame :=
  flat_map frames (animations r).

(** * The vocabulary of the statements *)

(** ** Sequences laid out in the buffer

    [seq_at size P o xs] says that the elements of [xs] sit one after the
    other from offset [o], each satisfying [P] at its own offset. *)

Fixpoint seq_at {A} (size : A -> nat) (P : nat -> A -> Prop) (o : nat)
    (xs : list A) : Prop :=
  match xs with
  | [] => True
  | x :: xs' => P o x /\ seq_at size P (o + size x) xs'
  end.

Definition total {A} (size : A -> nat) (xs : list A) : nat :=
  list_sum (map size xs).

(** The state a loop body leaves: the cursor moved by [k], the sprite
    indices [peaks] folded into the running maximum, the console as it
    was. *)
Definition moved (s : state) (k : nat) (peaks : list Z) : state :=
  mkState (offset s + k) (fold_left Z.max peaks (max_sprite_idx s)) (stdout s).

(** The packed word of a layer, read back from ['packed_raw']. *)
Definition packed_of (l : Layer) : Z := HexString.to_Z (packed_raw l).

(** Sizes in bytes of what the three loop bodies decode. *)
Definition layer_size (l : Layer) : nat := 12.

Definition frame_size (f : Frame) : nat := 2 + total layer_size (layers f).

Definition anim_size (a : Animation) : nat := 1 + total frame_size (frames a).

(** The sprite indices met while decoding, in file order. *)
Definition layer_peaks (l : Layer) : list Z := [sprite_index l].

Definition frame_peaks (f : Frame) : list Z := flat_map layer_peaks (layers f).

Definition anim_peaks (a : Animation) : list Z := flat_map frame_peaks (frames a).

(** The sprite indices of a package, in file order. *)
Definition package_peaks (r : Package) : list Z :=
  flat_map anim_peaks (animations r).

(** The four sub-fields of a layer are the bit fields of its packed word. *)
Definition unpacked (l : Layer) : Prop :=
  0 <= packed_of l < 2 ^ 32 /\
  sprite_index l = Z.land (Z.shiftr (packed_of l) 23) 0x1FF /\
  x_offset l = Z.land (Z.shiftr (packed_of l) 13) 0x3FF - 512 /\
  y_offset l = Z.land (Z.shiftr (packed_of l) 3) 0x3FF - 512 /\
  transform l = Z.land (packed_of l) 0x7.

(** A layer decoded from the twelve bytes at [o]. *)
Definition layer_at (data : PyBytes.bytes) (o : nat) (l : Layer) : Prop :=
  (o + 12 <= List.length data)%nat /\
  unpacked l /\
  rect_x (rect l) = PyStruct.big_endian (PyBytes.slice data o (o + 2)) /\
  rect_y (rect l) = PyStruct.big_endian (PyBytes.slice data (o + 2) (o + 4)) /\
  rect_w (rect l) = PyStruct.big_endian (PyBytes.slice data (o + 4) (o + 6)) /\
  rect_h (rect l) = PyStruct.big_endian (PyBytes.slice data (o + 6) (o + 8)) /\
  packed_of l = PyStruct.big_endian (PyBytes.slice data (o + 8) (o + 12)).

(** A frame decoded from the bytes at [o]: the delay byte, the count byte,
    then as many layers as the count byte says. *)
Definition frame_at (data : PyBytes.bytes) (o : nat) (f : Frame) : Prop :=
  PyStruct.unpack PyStruct.SByte (PyBytes.slice data o (o + 1)) = inr (delay f) /\
  PyBytes.index data (o + 1) = inr (Z.of_nat (List.length (layers f))) /\
  seq_at layer_size (layer_at data) (o + 2) (layers f) /\
  (o + frame_size f <= List.length data)%nat.

(** An animation decoded from the bytes at [o]: the count byte, then as
    many frames as it says. *)
Definition anim_at (data : PyBytes.bytes) (o : nat) (a : Animation) : Prop :=
  PyBytes.index data o = inr (Z.of_nat (List.length (frames a))) /\
  seq_at frame_size (frame_at data) (o + 1) (frames a) /\
  (o + anim_size a <= List.length data)%nat.

(** Where the animations start: after the optional byte and the count. *)
Definition header_size (package_id : Z) : nat :=
  if package_id =? 0 then 3%nat else 2%nat.

(** Re-packing: the four sub-fields put back at their bit positions. *)
Definition repack (si xo yo tr : Z) : Z :=
  Z.lor (Z.lor (Z.lor (Z.shiftl si 23) (Z.shiftl (xo + 512) 13))
               (Z.shiftl (yo + 512) 3)) tr.

(** The ranges the bit widths leave to the four sub-fields. *)
Definition in_range (l : Layer) : Prop :=
  0 <= sprite_index l <= 511 /\ 0 <= transform l <= 7 /\
  -512 <= x_offset l <= 511 /\ -512 <= y_offset l <= 511.

(** A frame whose delay is a signed byte and whose layers are unpacked. *)
Definition frame_ok (f : Frame) : Prop :=
  -128 <= delay f <= 127 /\ Forall unpacked (layers f).

(** The count byte of a frame, at [o + 1], is the number of its layers. *)
Definition num_layers_declared (data : PyBytes.bytes) (o : nat) (f : Frame)
    : Prop :=
  PyBytes.index data (o + 1) = inr (Z.of_nat (List.length (layers f))).

(** The count byte of an animation, at [o], is the number of its frames,
    and each of its frames, laid out one after the other from [o + 1], has
    as many layers as its own count byte says. *)
Definition num_frames_declared (data : PyBytes.bytes) (o : nat)
    (a : Animation) : Prop :=
  PyBytes.index data o = inr (Z.of_nat (List.length (frames a))) /\
  seq_at frame_size (num_layers_declared data) (o + 1) (frames a).

(** ** Exceptions and the console *)

(** A computation over the buffer is stable when a run that returns on a
    buffer returns the same on every buffer that extends it. *)
Definition stable {A} (m : PyBytes.bytes -> M A) : Prop :=
  forall d ext s a s', m d s = Return a s' -> m (d ++ ext) s = Return a s'.

(** Two exceptions are of one kind when they are of the same Python
    class. *)
Definition same_kind (e1 e2 : exn) : bool :=
  match e1, e2 with
  | IndexError, IndexError => true
  | StructError _, StructError _ => true
  | _, _ => false
  end.

(** The document's single kind of error: whatever the buffers, two failing decodes
    fail with one and the same kind of error. *)
Definition single_error_kind : Prop :=
  forall (d1 d2 : PyBytes.bytes) (p1 p2 : Z) (e1 e2 : exn)
         (out1 out2 : list string),
    parse_dat d1 p1 (init []) = Raise e1 out1 ->
    parse_dat d2 p2 (init []) = Raise e2 out2 ->
    same_kind e1 e2 = true.

(** The same state, on a console that already shows [pre]. *)
Definition push (pre : list string) (s : state) : state :=
  mkState (offset s) (max_sprite_idx s) (pre ++ stdout s).

Definition prepend {A} (pre : list string) (o : outcome A) : outcome A :=
  match o with
  | Return a s => Return a (push pre s)
  | Raise e out => Raise e (pre ++ out)
  end.

(** A computation only writes to the console when what the console showed
    before changes nothing but what it shows after. *)
Definition writes_only {A} (m : M A) : Prop :=
  forall pre s, m (push pre s) = prepend pre (m s).


(** The value a call returns, if it returns. *)
Definition result_of {A} (o : outcome A) : option A :=
  match o with
  | Return a _ => Some a
  | Raise _ _ => None
  end.

(** The other byte order, for comparison: [struct.unpack('<H', buf)]. *)
Definition little_endian (buf : PyBytes.bytes) : Z :=
  PyStruct.big_endian (rev buf).

(** ** Sample files *)

(** One animation, one frame of delay -5, one layer with rect (10,20,30,40)
    and packed word 0x00800000; read as package 7. *)
Definition one_layer_file : PyBytes.bytes :=
  [x00; x01;  x01;  xfb; x01;
   x00; x0a; x00; x14; x00; x1e; x00; x28;  x00; x80; x00; x00].

Definition one_layer_package : Package :=
  mkPackage 7
    [mkAnimation 0
       [mkFrame 0 [mkLayer (mkRect 10 20 30 40) 1 (-512) (-512) 0 "0x800000"]
                (-5)]]
    None 1 1.

Definition one_layer_final : state :=
  mkState 17 1
    ["Num animations: 1"; "Max sprite index: 1";
     "Bytes read: 17, File size: 17"]%string.

(** A file whose count of animations and whose first rect field are both
    the bytes 01 02: the first animation has one frame with one layer, the
    other 257 animations have no frame; read as package 1. *)
Definition endian_file : PyBytes.bytes :=
  [x01; x02;  x01;  x00; x01;
   x01; x02; x00; x00; x00; x00; x00; x00;  x00; x00; x00; x00]
  ++ repeat x00 257.

(** The [x] of the rect of the first layer of a package. *)
Definition first_rect_x (r : Package) : option Z :=
  option_map (fun l => rect_x (rect l)) (head (all_layers r)).

(** ** The caller: [main] *)

(** [for x in xs], for a body that returns nothing. *)
Fixpoint for_each {A} (xs : list A) (body : A -> M unit) : M unit :=
  match xs with
  | [] => ret tt
  | x :: xs' => body x ;;; for_each xs' body
  end.

(** The line feed of ["\n"]. *)
Definition newline : string := String (Ascii.ascii_of_nat 10) EmptyString.

(** Lines 134-136: the line of one layer. *)
Definition print_layer (layer : Layer) : M unit :=
  let r := rect layer in
  print ("    Layer: rect(" ++ py_str (rect_x r) ++ "," ++ py_str (rect_y r)
         ++ "," ++ py_str (rect_w r) ++ "," ++ py_str (rect_h r)
         ++ ") sprite=" ++ py_str (sprite_index layer)
         ++ " offset=(" ++ py_str (x_offset layer) ++ ","
         ++ py_str (y_offset layer)
         ++ ") transform=" ++ py_str (transform layer)).

(** Lines 132-136: the line of one frame and of its first three layers. *)
Definition print_frame (frame : Frame) : M unit :=
  print ("  Frame " ++ py_str (Z.of_nat (frame_id frame))
         ++ ": delay=" ++ py_str (delay frame)
         ++ ", layers=" ++ py_str (Z.of_nat (List.length (layers frame)))) ;;;
  for_each (firstn 3 (layers frame)) print_layer.

(** Lines 130-136: the line of one animation and of its first two
    frames. *)
Definition print_animation (anim : Animation) : M unit :=
  print (newline ++ "Animation " ++ py_str (Z.of_nat (anim_id anim))
         ++ ": " ++ py_str (Z.of_nat (List.length (frames anim)))
         ++ " frames") ;;;
  for_each (firstn 2 (frames anim)) print_frame.

(** Lines 128-136: the summary of the first three animations. *)
Definition print_summary (result : Package) : M unit :=
  print (newline ++ "--- First 3 animations ---") ;;;
  for_each (firstn 3 (animations result)) print_animation.

(** Lines 125-136 of [main], once [filepath] and [package_id] are chosen:
    the announcement, the decode of the contents [data] of the file, and
    the summary.  The save to JSON that follows is not part of it. *)
Definition main_report (filepath : string) (data : PyBytes.bytes)
    (package_id : Z) : M Package :=
  print ("Parsing " ++ filepath ++ " (package " ++ py_str package_id ++ ")...") ;;;
  result <- parse_dat data package_id ;;
  print_summary result ;;;
  ret result.

(** [s] with the prefix [p] taken off, when it starts with [p]. *)
Fixpoint strip_prefix (p s : string) : option string :=
  match p, s with
  | EmptyString, _ => Some s
  | String a p', String b s' =>
      if Ascii.eqb a b then strip_prefix p' s' else None
  | String _ _, EmptyString => None
  end.

(** [s.replace(old, new)] for a non-empty [old], scanning from the left:
    [skip] counts the characters of an occurrence still to pass over. *)
Fixpoint replace_from (old new : string) (skip : nat) (s : string) : string :=
  match s with
  | EmptyString => EmptyString
  | String c s' =>
      match skip with
      | S k => replace_from old new k s'
      | O =>
          match strip_prefix old s with
          | Some _ => new ++ replace_from old new (String.length old - 1) s'
          | None => String c (replace_from old new 0 s')
          end
      end
  end.

(** [s.replace(old, new)]; with an empty [old] Python puts [new] before
    every character and at the end. *)
Definition str_replace (old new s : string) : string :=
  match old with
  | EmptyString =>
      (fix between (t : string) : string :=
         match t with
         | EmptyString => new
         | String c t' => (new ++ String c (between t'))%string
         end) s
  | String _ _ => replace_from old new 0 s
  end.

(** Line 139: [filepath.replace('.dat', '_parsed.json')]. *)
Definition output_path (filepath : string) : string :=
  str_replace ".dat" "_parsed.json" filepath.

(** [old] occurs somewhere in [s]. *)
Fixpoint occurs (old s : string) : bool :=
  match strip_prefix old s with
  | Some _ => true
  | None =>
      match s with
      | EmptyString => false
      | String _ s' => occurs old s'
      end
  end.

(** ** Layers tied to their bytes *)

(** The packed word of the layer that starts at [o]: bytes 8-11 of its
    twelve, read big-endian as line 84 reads them. *)
Definition packed_at (data : PyBytes.bytes) (o : nat) : Z :=
  PyStruct.big_endian (PyBytes.slice data (o + 8) (o + 12)).

(** The four sub-fields of [l] are the bit fields of the word [p]. *)
Definition fields_of_packed (p : Z) (l : Layer) : Prop :=
  sprite_index l = Z.land (Z.shiftr p 23) 0x1FF /\
  x_offset l = Z.land (Z.shiftr p 13) 0x3FF - 512 /\
  y_offset l = Z.land (Z.shiftr p 3) 0x3FF - 512 /\
  transform l = Z.land p 0x7.

(** The layer at [o] has the bit fields of the word the file holds
    there. *)
Definition layer_unpacks (data : PyBytes.bytes) (o : nat) (l : Layer) : Prop :=
  (o + 12 <= List.length data)%nat /\
  fields_of_packed (packed_at data o) l.

(** Re-packing the sub-fields of the layer at [o] gives the word the file
    holds there. *)
Definition layer_repacks (data : PyBytes.bytes) (o : nat) (l : Layer) : Prop :=
  (o + 12 <= List.length data)%nat /\
  0 <= packed_at data o < 2 ^ 32 /\
  repack (sprite_index l) (x_offset l) (y_offset l) (transform l)
    = packed_at data o.

(** The ['packed_raw'] of the layer at [o] is [hex()] of the word the file
    holds there. *)
Definition layer_raw (data : PyBytes.bytes) (o : nat) (l : Layer) : Prop :=
  (o + 12 <= List.length data)%nat /\
  packed_raw l = py_hex (packed_at data o).

(** A frame at [o] whose count byte, at [o + 1], is the number of its
    layers, and whose layers, twelve bytes each from [o + 2], satisfy [L]
    each at its own offset. *)
Definition frame_with (L : PyBytes.bytes -> nat -> Layer -> Prop)
    (data : PyBytes.bytes) (o : nat) (f : Frame) : Prop :=
  PyBytes.index data (o + 1) = inr (Z.of_nat (List.length (layers f))) /\
  seq_at layer_size (L data) (o + 2) (layers f).

(** An animation at [o] whose count byte is the number of its frames, laid
    out one after the other from [o + 1]. *)
Definition anim_with (L : PyBytes.bytes -> nat -> Layer -> Prop)
    (data : PyBytes.bytes) (o : nat) (a : Animation) : Prop :=
  PyBytes.index data o = inr (Z.of_nat (List.length (frames a))) /\
  seq_at frame_size (frame_with L data) (o + 1) (frames a).

(** A package that has as many animations as the two count bytes of the
    header say, laid out one after the other from the end of the header,
    every layer satisfying [L] at its own offset. *)
Definition package_with (L : PyBytes.bytes -> nat -> Layer -> Prop)
    (data : PyBytes.bytes) (pid : Z) (r : Package) : Prop :=
  PyStruct.unpack PyStruct.BE_H
    (PyBytes.slice data (header_size pid - 2) (header_size pid))
    = inr (Z.of_nat (List.length (animations r))) /\
  seq_at anim_size (anim_with L data) (header_size pid) (animations r).

(** ** The header, as the document describes it *)

(** What the document says of the header: with package_id 0 one unsigned
    byte num_packages, the cursor moved by 1; then in every case one
    unsigned 16-bit big-endian num_animations, the cursor moved by 2.  The
    result is num_packages (when read), num_animations and the cursor; on a
    file too short, the Python exception of the read that fails and the
    num_packages read before it. *)
Definition read_header (data : PyBytes.bytes) (package_id : Z)
    : (exn * option Z) + (option Z * Z * nat) :=
  if package_id =? 0 then
    match data with
    | [] => inl (IndexError, None)
    | b :: hi :: lo :: _ =>
        inr (Some (PyBytes.u8 b), PyBytes.u8 hi * 256 + PyBytes.u8 lo, 3%nat)
    | b :: _ => inl (StructError 2, Some (PyBytes.u8 b))
    end
  else
    match data with
    | hi :: lo :: _ =>
        inr (None, PyBytes.u8 hi * 256 + PyBytes.u8 lo, 2%nat)
    | _ => inl (StructError 2, None)
    end.

(** The lines the header prints (lines 38 and 44). *)
Definition packages_line (num_packages : option Z) : list string :=
  match num_packages with
  | Some v => ["Num packages: " ++ py_str v]%string
  | None => []
  end.

Definition animations_line (num_animations : Z) : list string :=
  ["Num animations: " ++ py_str num_animations]%string.

(** Lines 46-114: what [parse_dat] does once the header is read. *)
Definition parse_body (data : PyBytes.bytes) (package_id : Z)
    (num_packages : option Z) (num_animations : Z) : M Package :=
  set_max 0 ;;;
  animations <- for_range (Z.to_nat num_animations) 0 (parse_animation data) ;;
  max_sprite_idx <- get_max ;;
  print ("Max sprite index: " ++ py_str max_sprite_idx) ;;;
  o <- get_offset ;;
  print ("Bytes read: " ++ py_str (Z.of_nat o)
         ++ ", File size: " ++ py_str (Z.of_nat (List.length data))) ;;;
  ret (mkPackage package_id animations num_packages num_animations
                 max_sprite_idx).

(** ** The reads of a decode *)

(** The two ways the parser reads the file: [data[offset]], and
    [struct.unpack(f, data[offset:offset+n])]. *)
Inductive read : Type :=
  | ReadByte
  | ReadStruct (f : PyStruct.format).

Definition read_size (rd : read) : nat :=
  match rd with
  | ReadByte => 1%nat
  | ReadStruct f => PyStruct.calcsize f
  end.

(** The exception of a read that finds the file too short. *)
Definition read_error (rd : read) : exn :=
  match rd with
  | ReadByte => IndexError
  | ReadStruct f => StructError (PyStruct.calcsize f)
  end.

(** Lines 74-84: the reads of a layer, in order. *)
Definition layer_reads (l : Layer) : list read :=
  [ReadStruct PyStruct.BE_H; ReadStruct PyStruct.BE_H;
   ReadStruct PyStruct.BE_H; ReadStruct PyStruct.BE_H;
   ReadStruct PyStruct.BE_I].

(** Lines 64 and 69, then the layers. *)
Definition frame_reads (f : Frame) : list read :=
  ReadStruct PyStruct.SByte :: ReadByte :: flat_map layer_reads (layers f).

(** Line 54, then the frames. *)
Definition anim_reads (a : Animation) : list read :=
  ReadByte :: flat_map frame_reads (frames a).

(** Lines 35 and 41, then the animations: every read of the decode that
    returned [r], in the order it was made. *)
Definition package_reads (pid : Z) (r : Package) : list read :=
  (if pid =? 0 then [ReadByte] else []) ++
  ReadStruct PyStruct.BE_H :: flat_map anim_reads (animations r).

Definition reads_size (rds : list read) : nat := list_sum (map read_size rds).

(** The read that covers byte [k] of the file when the reads [rds] are
    made one after the other from offset 0. *)
Fixpoint read_at (rds : list read) (k : nat) : option read :=
  match rds with
  | [] => None
  | rd :: rest =>
      if (k <? read_size rd)%nat then Some rd
      else read_at rest (k - read_size rd)
  end.

(** What a computation that makes the reads [rds] from offset [o] does on
    a file cut at byte [o + j]: it raises at the read that covers that
    byte, or goes through when there is none. *)
Definition cut_result {A} (rds : list read) (j : nat) (out : list string)
    (ok : outcome A) : outcome A :=
  match read_at rds j with
  | Some rd => Raise (read_error rd) out
  | None => ok
  end.

(** A computation that always returns. *)
Definition returns {A} (m : M A) : Prop :=
  forall s, exists a s', m s = Return a s'.

(** A computation over the buffer that returns once the buffer is made
    long enough. *)
Definition completable {A} (m : PyBytes.bytes -> M A) : Prop :=
  forall d s, exists ext a s', m (d ++ ext) s = Return a s'.

(** ** Calls of [print] and lines of output *)

(** The line feeds inside a string. *)
Fixpoint line_feeds (s : string) : nat :=
  match s with
  | EmptyString => O
  | String c s' =>
      ((if Ascii.eqb c (Ascii.ascii_of_nat 10) then 1 else 0) + line_feeds s')%nat
  end.

(** The lines that a list of printed strings takes on the console: every
    [print] ends its string with a line feed, and the string may hold
    others. *)
Definition output_lines (out : list string) : nat :=
  list_sum (map (fun s => S (line_feeds s)) out).

(** [m] always returns, changes nothing but the console, and makes at most
    [calls] calls of [print], which take at most [lines] lines. *)
Definition prints_within (m : M unit) (calls lines : nat) : Prop :=
  forall s, exists out,
    m s = Return tt (mkState (offset s) (max_sprite_idx s) (stdout s ++ out)) /\
    (List.length out <= calls)%nat /\ (output_lines out <= lines)%nat.

(** * Lemmas *)

(** ** Reading bytes *)

Module BytesFacts.
Import PyBytes PyStruct.

Lemma u8_range (b : byte) : 0 <= u8 b <= 255.
Proof.
  unfold u8. pose proof (Byte.to_N_bounded b). lia.
Qed.

Lemma slice_length (data : bytes) (a k : nat) :
  List.length (slice data a (a + k)) = Nat.min k (List.length data - a).
Proof.
  unfold slice. rewrite length_firstn, length_skipn.
  replace (a + k - a)%nat with k by lia. reflexivity.
Qed.

(** A slice of the full width lies inside the buffer. *)
Lemma slice_full (data : bytes) (a k : nat) :
  (0 < k)%nat -> List.length (slice data a (a + k)) = k ->
  (a + k <= List.length data)%nat.
Proof.
  intros Hk H. rewrite slice_length in H. lia.
Qed.

Lemma index_inr (data : bytes) (i : nat) (v : Z) :
  index data i = inr v ->
  (i < List.length data)%nat /\ 0 <= v <= 255.
Proof.
  unfold index. destruct (nth_error data i) as [b|] eqn:E; [|discriminate].
  intros H. injection H as <-. split; [|apply u8_range].
  apply nth_error_Some. congruence.
Qed.

Lemma index_inl (data : bytes) (i : nat) (e : exn) :
  index data i = inl e -> e = IndexError /\ (List.length data <= i)%nat.
Proof.
  unfold index. destruct (nth_error data i) as [b|] eqn:E; [discriminate|].
  intros H. injection H as <-. split; [reflexivity|].
  now apply nth_error_None.
Qed.

Lemma unpack_length (f : format) (buf : bytes) (v : Z) :
  unpack f buf = inr v -> List.length buf = calcsize f.
Proof.
  unfold unpack. destruct (Nat.eqb_spec (List.length buf) (calcsize f)); [auto|discriminate].
Qed.

Lemma unpack_inl (f : format) (buf : bytes) (e : exn) :
  unpack f buf = inl e ->
  e = StructError (calcsize f) /\ List.length buf <> calcsize f.
Proof.
  unfold unpack. destruct (Nat.eqb_spec (List.length buf) (calcsize f)).
  - destruct f; discriminate.
  - intros H. injection H as <-. auto.
Qed.

Lemma unpack_BE_H (buf : bytes) (v : Z) :
  unpack BE_H buf = inr v ->
  exists b1 b0, buf = [b1; b0] /\ v = u8 b1 * 256 + u8 b0.
Proof.
  intros H. pose proof (unpack_length _ _ _ H) as L.
  destruct buf as [|b1 [|b0 [|? ?]]]; try discriminate L.
  exists b1, b0. split; [reflexivity|].
  unfold unpack in H. simpl in H. injection H as <-.
  unfold big_endian. simpl. lia.
Qed.

Lemma unpack_BE_I (buf : bytes) (v : Z) :
  unpack BE_I buf = inr v ->
  exists b3 b2 b1 b0, buf = [b3; b2; b1; b0] /\
    v = ((u8 b3 * 256 + u8 b2) * 256 + u8 b1) * 256 + u8 b0.
Proof.
  intros H. pose proof (unpack_length _ _ _ H) as L.
  destruct buf as [|b3 [|b2 [|b1 [|b0 [|? ?]]]]]; try discriminate L.
  exists b3, b2, b1, b0. split; [reflexivity|].
  unfold unpack in H. simpl in H. injection H as <-.
  unfold big_endian. simpl. lia.
Qed.

Lemma unpack_SByte (buf : bytes) (v : Z) :
  unpack SByte buf = inr v ->
  exists b, buf = [b] /\ v = signed8 (u8 b).
Proof.
  intros H. pose proof (unpack_length _ _ _ H) as L.
  destruct buf as [|b [|? ?]]; try discriminate L.
  exists b. split; [reflexivity|].
  unfold unpack in H. simpl in H. injection H as <-.
  unfold big_endian. simpl. reflexivity.
Qed.

Lemma unpack_BE_H_range (buf : bytes) (v : Z) :
  unpack BE_H buf = inr v -> 0 <= v <= 65535.
Proof.
  intros H. apply unpack_BE_H in H as (b1 & b0 & _ & ->).
  pose proof (u8_range b1). pose proof (u8_range b0). lia.
Qed.

Lemma unpack_BE_I_range (buf : bytes) (v : Z) :
  unpack BE_I buf = inr v -> 0 <= v < 2 ^ 32.
Proof.
  intros H. apply unpack_BE_I in H as (b3 & b2 & b1 & b0 & _ & ->).
  pose proof (u8_range b3). pose proof (u8_range b2).
  pose proof (u8_range b1). pose proof (u8_range b0).
  change (2 ^ 32) with 4294967296. lia.
Qed.

Lemma unpack_SByte_range (buf : bytes) (v : Z) :
  unpack SByte buf = inr v -> -128 <= v <= 127.
Proof.
  intros H. apply unpack_SByte in H as (b & _ & ->).
  pose proof (u8_range b). unfold signed8.
  destruct (Z.ltb_spec (u8 b) 128); lia.
Qed.

(** Reads that succeed on a buffer succeed, with the same value, on any
    buffer that extends it. *)
Lemma index_app (data ext : bytes) (i : nat) (v : Z) :
  index data i = inr v -> index (data ++ ext) i = inr v.
Proof.
  intros H. pose proof (index_inr _ _ _ H) as [Hi _].
  unfold index in *. now rewrite nth_error_app1.
Qed.

Lemma slice_app (data ext : bytes) (a k : nat) :
  (a + k <= List.length data)%nat ->
  slice (data ++ ext) a (a + k) = slice data a (a + k).
Proof.
  intros H. unfold slice. replace (a + k - a)%nat with k by lia.
  rewrite skipn_app, firstn_app, length_skipn.
  replace (k - (List.length data - a))%nat with 0%nat by lia.
  rewrite firstn_O, app_nil_r. reflexivity.
Qed.

Lemma unpack_slice_app (data ext : bytes) (f : format) (a : nat) (v : Z) :
  unpack f (slice data a (a + calcsize f)) = inr v ->
  unpack f (slice (data ++ ext) a (a + calcsize f)) = inr v.
Proof.
  intros H. rewrite slice_app; [assumption|].
  apply slice_full; [destruct f; simpl; lia|].
  eapply unpack_length; eassumption.
Qed.

End BytesFacts.

(** ** Runs of the monad *)

Lemma bind_Return {A B} (m : M A) (f : A -> M B) (s s' : state) (b : B) :
  bind m f s = Return b s' ->
  exists a s1, m s = Return a s1 /\ f a s1 = Return b s'.
Proof.
  unfold bind. destruct (m s) as [a s1|e out]; [|discriminate].
  intros H. now exists a, s1.
Qed.

Lemma bind_Raise {A B} (m : M A) (f : A -> M B) (s : state) (e : exn)
    (out : list string) :
  bind m f s = Raise e out ->
  m s = Raise e out \/ exists a s1, m s = Return a s1 /\ f a s1 = Raise e out.
Proof.
  unfold bind. destruct (m s) as [a s1|e' out'].
  - intros H. right. now exists a, s1.
  - intros H. left. injection H as -> ->. reflexivity.
Qed.

Lemma byte_at_offset_Return data (s s' : state) (v : Z) :
  byte_at_offset data s = Return v s' ->
  s' = s /\ PyBytes.index data (offset s) = inr v.
Proof.
  unfold byte_at_offset, bind, get_offset, lift.
  destruct (PyBytes.index data (offset s)); [discriminate|].
  intros H. injection H as <- <-. auto.
Qed.

Lemma unpack_at_offset_Return data f k (s s' : state) (v : Z) :
  unpack_at_offset data f k s = Return v s' ->
  s' = s /\
  PyStruct.unpack f (PyBytes.slice data (offset s) (offset s + k)) = inr v.
Proof.
  unfold unpack_at_offset, bind, get_offset, lift.
  destruct (PyStruct.unpack f _); [discriminate|].
  intros H. injection H as <- <-. auto.
Qed.

Lemma ret_Return {A} (a b : A) (s s' : state) :
  ret a s = Return b s' -> b = a /\ s' = s.
Proof. unfold ret. intros H. inversion H. auto. Qed.

Lemma advance_Return (k : nat) (s s' : state) (u : unit) :
  advance k s = Return u s' ->
  s' = mkState (offset s + k) (max_sprite_idx s) (stdout s).
Proof. unfold advance. intros H. inversion H. reflexivity. Qed.

Lemma set_offset_Return (o : nat) (s s' : state) (u : unit) :
  set_offset o s = Return u s' ->
  s' = mkState o (max_sprite_idx s) (stdout s).
Proof. unfold set_offset. intros H. inversion H. reflexivity. Qed.

Lemma set_max_Return (v : Z) (s s' : state) (u : unit) :
  set_max v s = Return u s' -> s' = mkState (offset s) v (stdout s).
Proof. unfold set_max. intros H. inversion H. reflexivity. Qed.

Lemma get_max_Return (s s' : state) (v : Z) :
  get_max s = Return v s' -> v = max_sprite_idx s /\ s' = s.
Proof. unfold get_max. intros H. inversion H. auto. Qed.

Lemma get_offset_Return (s s' : state) (o : nat) :
  get_offset s = Return o s' -> o = offset s /\ s' = s.
Proof. unfold get_offset. intros H. inversion H. auto. Qed.

Lemma print_Return (line : string) (s s' : state) (u : unit) :
  print line s = Return u s' ->
  s' = mkState (offset s) (max_sprite_idx s) (stdout s ++ [line]).
Proof. unfold print. intros H. inversion H. reflexivity. Qed.

(** Takes a successful run apart, one statement at a time. *)
Ltac run_step H :=
  match type of H with
  | bind _ _ _ = Return _ _ =>
      let a := fresh "v" in let s1 := fresh "s" in let H1 := fresh "R" in
      apply bind_Return in H; destruct H as (a & s1 & H1 & H);
      run_step H1
  | byte_at_offset _ _ = Return _ _ =>
      apply byte_at_offset_Return in H; destruct H as [-> H]
  | unpack_at_offset _ _ _ _ = Return _ _ =>
      apply unpack_at_offset_Return in H; destruct H as [-> H]
  | advance _ _ = Return _ _ => apply advance_Return in H; subst
  | set_offset _ _ = Return _ _ => apply set_offset_Return in H; subst
  | set_max _ _ = Return _ _ => apply set_max_Return in H; subst
  | get_max _ = Return _ _ => apply get_max_Return in H; destruct H; subst
  | get_offset _ = Return _ _ =>
      apply get_offset_Return in H; destruct H; subst
  | print _ _ = Return _ _ => apply print_Return in H; subst
  | ret _ _ = Return _ _ => apply ret_Return in H; destruct H; subst
  | _ => idtac
  end.

Ltac run_steps H := repeat (progress run_step H).

(** ** What a loop leaves behind

    Every body of the three loops moves the cursor by the size of what it
    decoded, folds the sprite indices it met into the running maximum and
    leaves the console alone.  A loop then does the same for the sequence. *)

Section Loop.
Context {A : Type} (body : nat -> M A).
Context (size : A -> nat) (peaks : A -> list Z) (P : nat -> A -> Prop).

Hypothesis body_post : forall i s a s',
  body i s = Return a s' ->
  s' = moved s (size a) (peaks a) /\ P (offset s) a.

Lemma for_range_post (n i : nat) (s s' : state) (xs : list A) :
  for_range n i body s = Return xs s' ->
  List.length xs = n /\
  s' = moved s (total size xs) (flat_map peaks xs) /\
  seq_at size P (offset s) xs.
Proof.
  revert i s s' xs. induction n as [|n IH]; intros i s s' xs H; simpl in H.
  - run_steps H. unfold moved, total. simpl. destruct s; simpl.
    rewrite Nat.add_0_r. auto.
  - run_steps H. apply body_post in R as [-> HP].
    apply IH in R0 as (L & -> & Hseq). simpl.
    split; [now rewrite L|]. split.
    + unfold moved, total. simpl. rewrite fold_left_app. f_equal. lia.
    + split; [assumption|]. exact Hseq.
Qed.

End Loop.

Lemma seq_at_impl {A} (size : A -> nat) (P Q : nat -> A -> Prop) :
  (forall o a, P o a -> Q o a) ->
  forall xs o, seq_at size P o xs -> seq_at size Q o xs.
Proof.
  intros HPQ xs. induction xs as [|x xs IH]; simpl; [auto|].
  intros o [Hx Hxs]. split; auto.
Qed.

Lemma seq_at_Forall {A} (size : A -> nat) (P : nat -> A -> Prop)
    (Q : A -> Prop) :
  (forall o a, P o a -> Q a) ->
  forall xs o, seq_at size P o xs -> Forall Q xs.
Proof.
  intros HPQ xs. induction xs as [|x xs IH]; simpl; [constructor|].
  intros o [Hx Hxs]. constructor; eauto.
Qed.

(** Each element ends inside the buffer, so the sequence does. *)
Lemma seq_at_bound {A} (size : A -> nat) (P : nat -> A -> Prop) (len : nat) :
  (forall o a, P o a -> (o + size a <= len)%nat) ->
  forall xs o, (o <= len)%nat -> seq_at size P o xs ->
    (o + total size xs <= len)%nat.
Proof.
  intros HP xs. unfold total.
  induction xs as [|x xs IH]; simpl; intros o Ho H; [lia|].
  destruct H as [Hx Hxs]. apply HP in Hx.
  specialize (IH (o + size x)%nat Hx Hxs). lia.
Qed.

(** ** What each loop body decodes *)

Section Bodies.
Import PyBytes PyStruct BytesFacts.
Variable data : bytes.

Lemma bump_max_Return (si : Z) (s s' : state) (u : unit) :
  (if si >? max_sprite_idx s then set_max si else ret tt) s = Return u s' ->
  s' = moved s 0 [si].
Proof.
  unfold moved. cbn [fold_left].
  destruct (Z.gtb_spec si (max_sprite_idx s)) as [G|G]; intros H;
    run_step H; destruct s as [o m out]; cbn [offset max_sprite_idx stdout] in *;
    f_equal; lia.
Qed.

Lemma parse_layer_post (i : nat) (s : state) (l : Layer) (s' : state) :
  parse_layer data i s = Return l s' ->
  s' = moved s (layer_size l) (layer_peaks l) /\ layer_at data (offset s) l.
Proof.
  intros H. unfold parse_layer in H. run_steps H.
  cbn [offset max_sprite_idx stdout] in *.
  match goal with
  | B : (if _ then _ else _) ?st = Return _ _ |- _ =>
      apply (bump_max_Return _ st) in B; subst
  end.
  pose proof (unpack_BE_I_range _ _ R3) as Hp.
  apply unpack_length in R3 as L3. apply slice_full in L3; [|simpl; lia].
  apply unpack_BE_H in R as (a1 & a0 & Ea & ->).
  apply unpack_BE_H in R0 as (b1 & b0 & Eb & ->).
  apply unpack_BE_H in R1 as (c1 & c0 & Ec & ->).
  apply unpack_BE_H in R2 as (d1 & d0 & Ed & ->).
  apply unpack_BE_I in R3 as (p3 & p2 & p1 & p0 & Ep & Hv).
  split.
  - unfold moved, layer_size, layer_peaks.
    cbn [offset max_sprite_idx stdout sprite_index fold_left].
    f_equal. lia.
  - unfold layer_at, unpacked, packed_of, py_hex.
    cbn [rect rect_x rect_y rect_w rect_h sprite_index x_offset y_offset
         transform packed_raw].
    rewrite HexString.to_Z_of_Z.
    replace (offset s + 4)%nat with (offset s + 2 + 2)%nat by lia.
    replace (offset s + 6)%nat with (offset s + 2 + 2 + 2)%nat by lia.
    replace (offset s + 8)%nat with (offset s + 2 + 2 + 2 + 2)%nat by lia.
    replace (offset s + 12)%nat with (offset s + 2 + 2 + 2 + 2 + 4)%nat by lia.
    rewrite Ea, Eb, Ec, Ed, Ep. unfold big_endian. cbn [fold_left].
    repeat split; try lia; try reflexivity; try exact L3.
Qed.

Lemma layer_at_end (o : nat) (l : Layer) :
  layer_at data o l -> (o + layer_size l <= List.length data)%nat.
Proof. intros [H _]. exact H. Qed.

Lemma parse_frame_post (i : nat) (s : state) (f : Frame) (s' : state) :
  parse_frame data i s = Return f s' ->
  s' = moved s (frame_size f) (frame_peaks f) /\ frame_at data (offset s) f.
Proof.
  intros H. unfold parse_frame in H. run_steps H.
  cbn [offset max_sprite_idx stdout] in *.
  apply (for_range_post _ layer_size layer_peaks (layer_at data)
           parse_layer_post) in R1 as (Hlen & -> & Hseq).
  cbn [offset max_sprite_idx stdout] in Hseq.
  apply index_inr in R0 as Hi. destruct Hi as [Hi Hv].
  assert (Hend : (offset s + frame_size (mkFrame i v3 v) <= List.length data)%nat).
  { unfold frame_size. cbn [layers].
    pose proof (seq_at_bound layer_size (layer_at data) (List.length data)
                  layer_at_end v3 (offset s + 1 + 1)%nat) as B.
    specialize (B ltac:(lia) Hseq). lia. }
  split.
  - unfold moved, frame_size, frame_peaks.
    cbn [offset max_sprite_idx stdout layers]. f_equal. lia.
  - unfold frame_at. cbn [layers delay].
    split; [exact R|]. split; [|split; [|exact Hend]].
    + rewrite Hlen, Z2Nat.id by lia. exact R0.
    + replace (offset s + 2)%nat with (offset s + 1 + 1)%nat by lia.
      exact Hseq.
Qed.

Lemma frame_at_end (o : nat) (f : Frame) :
  frame_at data o f -> (o + frame_size f <= List.length data)%nat.
Proof. intros (_ & _ & _ & H). exact H. Qed.

Lemma parse_animation_post (i : nat) (s : state) (a : Animation) (s' : state) :
  parse_animation data i s = Return a s' ->
  s' = moved s (anim_size a) (anim_peaks a) /\ anim_at data (offset s) a.
Proof.
  intros H. unfold parse_animation in H. run_steps H.
  cbn [offset max_sprite_idx stdout] in *.
  apply (for_range_post _ frame_size frame_peaks (frame_at data)
           parse_frame_post) in R0 as (Hlen & -> & Hseq).
  cbn [offset max_sprite_idx stdout] in Hseq.
  apply index_inr in R as Hi. destruct Hi as [Hi Hv].
  assert (Hend : (offset s + anim_size (mkAnimation i v1) <= List.length data)%nat).
  { unfold anim_size. cbn [frames].
    pose proof (seq_at_bound frame_size (frame_at data) (List.length data)
                  frame_at_end v1 (offset s + 1)%nat) as B.
    specialize (B ltac:(lia) Hseq). lia. }
  split.
  - unfold moved, anim_size, anim_peaks.
    cbn [offset max_sprite_idx stdout frames]. f_equal. lia.
  - unfold anim_at. cbn [frames].
    split; [|split; [exact Hseq|exact Hend]].
    rewrite Hlen, Z2Nat.id by lia. exact R.
Qed.

Lemma anim_at_end (o : nat) (a : Animation) :
  anim_at data o a -> (o + anim_size a <= List.length data)%nat.
Proof. intros (_ & _ & H). exact H. Qed.

End Bodies.

Section Whole.
Import PyBytes PyStruct BytesFacts.
Variable data : bytes.

Lemma parse_header_post (pid : Z) (s s' : state) (np : option Z) (na : Z) :
  parse_header data pid s = Return (np, na) s' ->
  let k := if pid =? 0 then 1%nat else 0%nat in
  (if pid =? 0
   then exists v, index data (offset s) = inr v /\ np = Some v
   else np = None) /\
  unpack BE_H (slice data (offset s + k) (offset s + k + 2)) = inr na /\
  s' = mkState (offset s + k + 2) (max_sprite_idx s)
         (stdout s ++
          (match np with
           | Some v => ["Num packages: " ++ py_str v]%string
           | None => []
           end) ++ ["Num animations: " ++ py_str na]%string).
Proof.
  intros H. unfold parse_header in H.
  destruct (pid =? 0); run_steps H.
  - run_steps R. cbn [offset max_sprite_idx stdout] in *.
    inversion H; subst. split; [eauto|]. split; [assumption|].
    rewrite <- app_assoc. reflexivity.
  - cbn [offset max_sprite_idx stdout] in *.
    inversion H; subst. split; [reflexivity|].
    rewrite Nat.add_0_r. split; [assumption|]. reflexivity.
Qed.

(** Everything a successful call establishes, in one place. *)
Lemma parse_dat_post (pid : Z) (s0 s' : state) (r : Package) :
  parse_dat data pid s0 = Return r s' ->
  let k := if pid =? 0 then 1%nat else 0%nat in
  package_id r = pid /\
  (if pid =? 0
   then exists v, index data 0 = inr v /\ num_packages r = Some v
   else num_packages r = None) /\
  unpack BE_H (slice data k (k + 2)) = inr (num_animations r) /\
  List.length (animations r) = Z.to_nat (num_animations r) /\
  seq_at anim_size (anim_at data) (header_size pid) (animations r) /\
  max_sprite_index r = fold_left Z.max (package_peaks r) 0 /\
  offset s' = (header_size pid + total anim_size (animations r))%nat /\
  (offset s' <= List.length data)%nat /\
  stdout s' =
    stdout s0 ++
    (match num_packages r with
     | Some v => ["Num packages: " ++ py_str v]%string
     | None => []
     end) ++
    ["Num animations: " ++ py_str (num_animations r);
     "Max sprite index: " ++ py_str (max_sprite_index r);
     "Bytes read: " ++ py_str (Z.of_nat (offset s'))
       ++ ", File size: " ++ py_str (Z.of_nat (List.length data))]%string.
Proof.
  intros H. unfold parse_dat in H. run_steps H.
  match goal with
  | Hh : parse_header _ _ _ = Return ?h _ |- _ =>
      destruct h as [np na];
      apply parse_header_post in Hh as (Hnp & Hna & ->)
  end.
  cbn [offset max_sprite_idx stdout fst snd] in *.
  match goal with
  | Hl : for_range _ _ _ _ = Return _ _ |- _ =>
      apply (for_range_post _ anim_size anim_peaks (anim_at data)
               (parse_animation_post data)) in Hl as (Hlen & -> & Hseq)
  end.
  unfold moved in *.
  cbn [offset max_sprite_idx stdout package_id animations num_packages
       num_animations max_sprite_index Nat.add] in *.
  assert (Hk : ((if (pid =? 0)%Z then 1 else 0) + 2 = header_size pid)%nat).
  { unfold header_size. destruct (pid =? 0); reflexivity. }
  rewrite Hk in Hseq |- *.
  assert (Hend : (header_size pid + total anim_size v2 <= List.length data)%nat).
  { apply (seq_at_bound anim_size (anim_at data) _ (anim_at_end data));
      [|exact Hseq].
    rewrite <- Hk. apply unpack_length in Hna. apply slice_full in Hna;
      [exact Hna | simpl; lia]. }
  unfold package_peaks. cbn [animations].
  repeat split; try assumption; try reflexivity.
  - rewrite <- Hk. exact Hna.
  - rewrite <- !app_assoc. reflexivity.
Qed.
End Whole.

(** ** Bit fields of the packed word *)

Module BitFields.

(** A field of width [w] at bit [k], put back in place, keeps exactly the
    bits [k .. k+w-1] of the word. *)
Lemma field_bit (p k w n : Z) :
  0 <= k -> 0 <= w -> 0 <= n ->
  Z.testbit (Z.shiftl (Z.land (Z.shiftr p k) (Z.ones w)) k) n =
  Z.testbit p n && ((k <=? n) && (n <? k + w)).
Proof.
  intros Hk Hw Hn. rewrite Z.shiftl_spec by assumption.
  destruct (Z.leb_spec k n) as [L|L].
  - rewrite Z.land_spec, Z.shiftr_spec by lia.
    replace (n - k + k) with n by lia.
    rewrite Z.testbit_ones_nonneg by lia. f_equal.
    destruct (Z.ltb_spec (n - k) w), (Z.ltb_spec n (k + w)); try reflexivity; lia.
  - rewrite Z.testbit_neg_r by lia. now rewrite andb_false_r.
Qed.

Lemma high_bits (p n : Z) : 0 <= p < 2 ^ 32 -> 32 <= n -> Z.testbit p n = false.
Proof.
  intros [Hp0 Hp] Hn. destruct (Z.eq_dec p 0) as [->|Hne].
  - apply Z.bits_0.
  - apply Z.bits_above_log2; [assumption|].
    assert (Z.log2 p < 32) by (apply Z.log2_lt_pow2; lia). lia.
Qed.

Lemma repack_unpack (p : Z) :
  0 <= p < 2 ^ 32 ->
  repack (Z.land (Z.shiftr p 23) 0x1FF)
         (Z.land (Z.shiftr p 13) 0x3FF - 512)
         (Z.land (Z.shiftr p 3) 0x3FF - 512)
         (Z.land p 0x7) = p.
Proof.
  intros Hp. unfold repack. rewrite !Z.sub_add.
  change 0x1FF with (Z.ones 9). change 0x3FF with (Z.ones 10).
  apply Z.bits_inj'. intros n Hn.
  rewrite !Z.lor_spec.
  rewrite !field_bit by lia.
  replace (Z.land p 7) with (Z.shiftl (Z.land (Z.shiftr p 0) (Z.ones 3)) 0)
    by (rewrite Z.shiftl_0_r, Z.shiftr_0_r; reflexivity).
  rewrite field_bit by lia.
  destruct (Z.ltb_spec n 32) as [L|L].
  - destruct (Z.testbit p n); [|reflexivity]. cbn [andb].
    destruct (Z.leb_spec 23 n), (Z.ltb_spec n (23 + 9)),
             (Z.leb_spec 13 n), (Z.ltb_spec n (13 + 10)),
             (Z.leb_spec 3 n), (Z.ltb_spec n (3 + 10)),
             (Z.leb_spec 0 n), (Z.ltb_spec n (0 + 3)); cbn; try reflexivity; lia.
  - rewrite (high_bits p n) by lia. reflexivity.
Qed.

Lemma land_ones_range (a w : Z) : 0 <= w -> 0 <= Z.land a (Z.ones w) < 2 ^ w.
Proof.
  intros Hw. rewrite Z.land_ones by assumption.
  apply Z.mod_pos_bound. apply Z.pow_pos_nonneg; lia.
Qed.

End BitFields.

Lemma unpacked_in_range (l : Layer) : unpacked l -> in_range l.
Proof.
  unfold in_range. intros (_ & -> & -> & -> & ->).
  pose proof (BitFields.land_ones_range (Z.shiftr (packed_of l) 23) 9).
  pose proof (BitFields.land_ones_range (Z.shiftr (packed_of l) 13) 10).
  pose proof (BitFields.land_ones_range (Z.shiftr (packed_of l) 3) 10).
  pose proof (BitFields.land_ones_range (packed_of l) 3).
  change (Z.ones 9) with 511 in *. change (Z.ones 10) with 1023 in *.
  change (Z.ones 3) with 7 in *.
  change (2 ^ 9) with 512 in *. change (2 ^ 10) with 1024 in *.
  change (2 ^ 3) with 8 in *. lia.
Qed.

(** ** The layers and frames of a decoded package *)

Section Contents.
Import PyBytes PyStruct BytesFacts.
Variable data : bytes.

Lemma frame_at_ok (o : nat) (f : Frame) : frame_at data o f -> frame_ok f.
Proof.
  intros (Hd & _ & Hseq & _). split.
  - eapply unpack_SByte_range; eassumption.
  - eapply seq_at_Forall; [|exact Hseq]. intros o' l (_ & Hu & _). exact Hu.
Qed.

Lemma anim_at_ok (o : nat) (a : Animation) :
  anim_at data o a -> Forall frame_ok (frames a).
Proof.
  intros (_ & Hseq & _).
  eapply seq_at_Forall; [|exact Hseq]. apply frame_at_ok.
Qed.

Lemma parse_dat_frames (pid : Z) (s0 s' : state) (r : Package) :
  parse_dat data pid s0 = Return r s' -> Forall frame_ok (all_frames r).
Proof.
  intros H. apply parse_dat_post in H as (_ & _ & _ & _ & Hseq & _).
  unfold all_frames. apply Forall_flat_map.
  eapply seq_at_Forall; [|exact Hseq]. apply anim_at_ok.
Qed.

Lemma parse_dat_layers (pid : Z) (s0 s' : state) (r : Package) :
  parse_dat data pid s0 = Return r s' -> Forall unpacked (all_layers r).
Proof.
  intros H. apply parse_dat_frames in H.
  unfold all_layers, all_frames in *. rewrite Forall_flat_map in *.
  eapply Forall_impl; [|exact H]. intros a Ha.
  rewrite Forall_flat_map. eapply Forall_impl; [|exact Ha].
  intros f [_ Hf]. exact Hf.
Qed.

End Contents.

Lemma frame_peaks_map (f : Frame) :
  frame_peaks f = map sprite_index (layers f).
Proof.
  unfold frame_peaks, layer_peaks.
  induction (layers f) as [|l ls IH]; [reflexivity|].
  cbn [flat_map map app]. now rewrite IH.
Qed.

Lemma anim_peaks_map (a : Animation) :
  anim_peaks a = map sprite_index (flat_map layers (frames a)).
Proof.
  unfold anim_peaks.
  induction (frames a) as [|f fs IH]; [reflexivity|].
  cbn [flat_map]. now rewrite map_app, IH, frame_peaks_map.
Qed.

Lemma package_peaks_layers (r : Package) :
  package_peaks r = map sprite_index (all_layers r).
Proof.
  unfold package_peaks, all_layers.
  induction (animations r) as [|a rest IH]; [reflexivity|].
  cbn [flat_map]. now rewrite map_app, IH, anim_peaks_map.
Qed.

(** A left fold of [Z.max] is the greatest of the start and the elements. *)
Lemma fold_max_spec (xs : list Z) (m : Z) :
  let top := fold_left Z.max xs m in
  m <= top /\ Forall (fun x => x <= top) xs /\ (top = m \/ In top xs).
Proof.
  cbv zeta. revert m. induction xs as [|x xs IH]; intros m; cbn [fold_left].
  - split; [lia|]. split; [constructor|]. now left.
  - destruct (IH (Z.max m x)) as (Hle & Hall & Hin).
    split; [lia|]. split.
    + constructor; [lia|exact Hall].
    + destruct Hin as [E|Hin]; [|right; now right].
      destruct (Z.max_spec m x) as [[_ Em]|[_ Em]].
      * right. left. rewrite E. symmetry. exact Em.
      * left. rewrite E. exact Em.
Qed.

(** ** Reading past the end *)

Section Stable.
Import PyBytes PyStruct BytesFacts.

Lemma stable_const {A} (m : M A) : stable (fun _ => m).
Proof. intros d ext s a s' H. exact H. Qed.

Lemma stable_bind {A B} (m : bytes -> M A) (f : bytes -> A -> M B) :
  stable m -> (forall a, stable (fun d => f d a)) ->
  stable (fun d => bind (m d) (f d)).
Proof.
  intros Hm Hf d ext s b s' H.
  apply bind_Return in H as (a & s1 & H1 & H2).
  unfold bind. rewrite (Hm _ ext _ _ _ H1). exact (Hf a _ ext _ _ _ H2).
Qed.

Lemma stable_byte_at_offset : stable byte_at_offset.
Proof.
  intros d ext s v s' H. apply byte_at_offset_Return in H as [-> H].
  unfold byte_at_offset, bind, get_offset, lift.
  now rewrite (index_app _ ext _ _ H).
Qed.

Lemma stable_unpack_at_offset (f : format) :
  stable (fun d => unpack_at_offset d f (calcsize f)).
Proof.
  intros d ext s v s' H. apply unpack_at_offset_Return in H as [-> H].
  unfold unpack_at_offset, bind, get_offset, lift.
  now rewrite (unpack_slice_app _ ext _ _ _ H).
Qed.

Lemma stable_for_range {A} (body : bytes -> nat -> M A) (n i0 : nat) :
  (forall i, stable (fun d => body d i)) ->
  stable (fun d => for_range n i0 (body d)).
Proof.
  intros Hb. revert i0. induction n as [|n IH]; intros i0; cbn [for_range].
  - apply stable_const.
  - apply stable_bind; [apply Hb|]. intros a.
    apply stable_bind; [apply IH|]. intros rest. apply stable_const.
Qed.

Ltac stable_steps :=
  repeat first
    [ apply stable_byte_at_offset
    | apply (stable_unpack_at_offset BE_H)
    | apply (stable_unpack_at_offset BE_I)
    | apply (stable_unpack_at_offset SByte)
    | apply stable_const
    | apply stable_bind; [|intros ?] ].

Lemma stable_parse_layer (i : nat) : stable (fun d => parse_layer d i).
Proof. unfold parse_layer. stable_steps. Qed.

Lemma stable_parse_frame (i : nat) : stable (fun d => parse_frame d i).
Proof.
  unfold parse_frame. stable_steps.
  apply stable_for_range. exact stable_parse_layer.
Qed.

Lemma stable_parse_animation (i : nat) :
  stable (fun d => parse_animation d i).
Proof.
  unfold parse_animation. stable_steps.
  apply stable_for_range. exact stable_parse_frame.
Qed.

Lemma stable_parse_header (pid : Z) : stable (fun d => parse_header d pid).
Proof.
  unfold parse_header. destruct (pid =? 0); stable_steps.
Qed.

End Stable.

Section Overrun.
Import PyBytes PyStruct BytesFacts.

(** A byte read at or after the end raises [IndexError]. *)
Lemma byte_at_offset_overrun (data : bytes) (s : state) :
  (List.length data <= offset s)%nat ->
  byte_at_offset data s = Raise IndexError (stdout s).
Proof.
  intros H. unfold byte_at_offset, bind, get_offset, lift, index.
  apply nth_error_None in H. now rewrite H.
Qed.

(** An unpack of a slice that the end of the buffer cuts short raises
    [struct.error]. *)
Lemma unpack_at_offset_overrun (data : bytes) (f : format) (s : state) :
  (List.length data < offset s + calcsize f)%nat ->
  unpack_at_offset data f (calcsize f) s =
  Raise (StructError (calcsize f)) (stdout s).
Proof.
  intros H. unfold unpack_at_offset, bind, get_offset, lift, unpack.
  rewrite slice_length.
  destruct (Nat.eqb_spec (Nat.min (calcsize f) (List.length data - offset s))
              (calcsize f)) as [E|E];
    [destruct f; cbn [calcsize] in *; lia | reflexivity].
Qed.

(** The decode of a buffer is the decode of any buffer that extends it,
    up to the file size the last line prints. *)
Lemma parse_dat_app (data ext : bytes) (pid : Z) (s0 s' : state) (r : Package) :
  parse_dat data pid s0 = Return r s' ->
  exists s'', parse_dat (data ++ ext) pid s0 = Return r s'' /\
              offset s'' = offset s'.
Proof.
  intros H. unfold parse_dat in H. run_steps H.
  match goal with
  | Hh : parse_header _ _ _ = Return _ _ |- _ =>
      apply (stable_parse_header pid data ext) in Hh; rename Hh into Hh'
  end.
  match goal with
  | Hl : for_range _ _ _ _ = Return _ _ |- _ =>
      apply (stable_for_range parse_animation _ _ stable_parse_animation
               data ext) in Hl; rename Hl into Hl'
  end.
  cbn [offset max_sprite_idx stdout] in *.
  eexists. split.
  - unfold parse_dat, bind at 1 2. cbn [set_offset].
    rewrite Hh'. unfold bind at 1 2. cbn [set_max offset max_sprite_idx stdout].
    rewrite Hl'. reflexivity.
  - reflexivity.
Qed.

End Overrun.

(** ** The console *)

Section Console.

Lemma writes_ret {A} (a : A) : writes_only (ret a).
Proof. intros pre s. reflexivity. Qed.

Lemma writes_bind {A B} (m : M A) (f : A -> M B) :
  writes_only m -> (forall a, writes_only (f a)) -> writes_only (bind m f).
Proof.
  intros Hm Hf pre s. unfold bind. rewrite Hm.
  destruct (m s) as [a s1|e out]; cbn [prepend]; [apply Hf|reflexivity].
Qed.

Lemma writes_lift {A} (r : exn + A) : writes_only (lift r).
Proof. intros pre s. destruct r; reflexivity. Qed.

Lemma writes_get_offset : writes_only get_offset.
Proof. intros pre s. reflexivity. Qed.

Lemma writes_set_offset (o : nat) : writes_only (set_offset o).
Proof. intros pre s. reflexivity. Qed.

Lemma writes_advance (k : nat) : writes_only (advance k).
Proof. intros pre s. reflexivity. Qed.

Lemma writes_get_max : writes_only get_max.
Proof. intros pre s. reflexivity. Qed.

Lemma writes_set_max (v : Z) : writes_only (set_max v).
Proof. intros pre s. reflexivity. Qed.

Lemma writes_print (line : string) : writes_only (print line).
Proof.
  intros pre s. unfold print, prepend, push.
  cbn [offset max_sprite_idx stdout]. now rewrite app_assoc.
Qed.

Lemma writes_if {A} (b : bool) (m1 m2 : M A) :
  writes_only m1 -> writes_only m2 -> writes_only (if b then m1 else m2).
Proof. destruct b; auto. Qed.

Lemma writes_for_range {A} (body : nat -> M A) (n i0 : nat) :
  (forall i, writes_only (body i)) -> writes_only (for_range n i0 body).
Proof.
  intros Hb. revert i0. induction n as [|n IH]; intros i0; cbn [for_range].
  - apply writes_ret.
  - apply writes_bind; [apply Hb|]. intros a.
    apply writes_bind; [apply IH|]. intros rest. apply writes_ret.
Qed.

Ltac writes_steps :=
  repeat first
    [ apply writes_ret | apply writes_lift | apply writes_get_offset
    | apply writes_set_offset | apply writes_advance | apply writes_get_max
    | apply writes_set_max | apply writes_print
    | apply writes_if
    | apply writes_bind; [|intros ?] ].

Variable data : PyBytes.bytes.

Lemma writes_parse_layer (i : nat) : writes_only (parse_layer data i).
Proof. unfold parse_layer, unpack_at_offset. writes_steps. Qed.

Lemma writes_parse_frame (i : nat) : writes_only (parse_frame data i).
Proof.
  unfold parse_frame, unpack_at_offset, byte_at_offset. writes_steps.
  apply writes_for_range. exact writes_parse_layer.
Qed.

Lemma writes_parse_animation (i : nat) :
  writes_only (parse_animation data i).
Proof.
  unfold parse_animation, byte_at_offset. writes_steps.
  apply writes_for_range. exact writes_parse_frame.
Qed.

Lemma writes_parse_dat (pid : Z) : writes_only (parse_dat data pid).
Proof.
  unfold parse_dat, parse_header, unpack_at_offset, byte_at_offset.
  writes_steps. apply writes_for_range. exact writes_parse_animation.
Qed.

End Console.

(** ** A small file: one animation, one frame, one layer *)

Lemma parse_one_layer_file :
  parse_dat one_layer_file 7 (init []) = Return one_layer_package one_layer_final.
Proof. vm_compute. reflexivity. Qed.

(** * The decoder document, statement by statement *)

(** C1. The rect fields are read with ['>H'], the byte order of
    num_animations: on a file whose count of animations and whose first
    rect field are both the bytes 01 02, the decode returns 258 for both,
    where the little-endian reading of these bytes is 513. *)
Theorem rect_read_big_endian :
  option_map num_animations (result_of (parse_dat endian_file 1 (init [])))
    = Some 258 /\
  option_map first_rect_x (result_of (parse_dat endian_file 1 (init [])))
    = Some (Some 258) /\
  PyStruct.big_endian [x01; x02] = 258 /\
  little_endian [x01; x02] = 513.
Proof. vm_compute. repeat split; reflexivity. Qed.

(** C2, counterexample.  On the empty buffer the first read is an index and
    raises [IndexError]; on the one-byte buffer it is the unpack of
    num_animations and raises [struct.error]: two kinds, neither carrying an
    offset. *)
Lemma two_error_kinds : ~ single_error_kind.
Proof.
  intros H.
  specialize (H [] [x01] 0 0 IndexError (StructError 2)
                [] ["Num packages: 1"]%string).
  discriminate H; vm_compute; reflexivity.
Qed.

(** C7. In every successful decode each layer has sprite_index in [0, 511],
    transform in [0, 7], x_offset and y_offset in [-512, 511], and each
    frame has its delay in [-128, 127]. *)
Theorem field_ranges (data : PyBytes.bytes) (pid : Z) (s0 s' : state)
    (r : Package) :
  parse_dat data pid s0 = Return r s' ->
  Forall (fun l =>
            0 <= sprite_index l <= 511 /\ 0 <= transform l <= 7 /\
            -512 <= x_offset l <= 511 /\ -512 <= y_offset l <= 511)
         (all_layers r) /\
  Forall (fun f => -128 <= delay f <= 127) (all_frames r).
Proof.
  intros H. split.
  - apply parse_dat_layers in H. eapply Forall_impl; [|exact H].
    exact unpacked_in_range.
  - apply parse_dat_frames in H. eapply Forall_impl; [|exact H].
    intros f [Hd _]. exact Hd.
Qed.

Lemma field_ranges_witness :
  parse_dat one_layer_file 7 (init []) = Return one_layer_package one_layer_final /\
  Forall (fun l =>
            0 <= sprite_index l <= 511 /\ 0 <= transform l <= 7 /\
            -512 <= x_offset l <= 511 /\ -512 <= y_offset l <= 511)
         (all_layers one_layer_package) /\
  Forall (fun f => -128 <= delay f <= 127) (all_frames one_layer_package).
Proof.
  split; [exact parse_one_layer_file|].
  exact (field_ranges _ _ _ _ _ parse_one_layer_file).
Defined.

(** C8. The buffer [0x01, 0x00, 0x00] with package_id 0 decodes to a
    package with num_packages 1, num_animations 0 and no animation; the
    cursor ends at 3 and the console reports 3 bytes read of 3. *)
Theorem empty_package_decodes (console : list string) :
  parse_dat [x01; x00; x00] 0 (init console) =
  Return (mkPackage 0 [] (Some 1) 0 0)
         (mkState 3 0
            (console ++
             ["Num packages: 1"; "Num animations: 0"; "Max sprite index: 0";
              "Bytes read: 3, File size: 3"]%string)).
Proof.
  unfold parse_dat, parse_header, byte_at_offset, unpack_at_offset, bind, init.
  cbn. rewrite <- !app_assoc. reflexivity.
Qed.



(** C10. The reported max_sprite_index starts from 0 and is only raised:
    it is the greatest of 0 and the sprite indices of all decoded layers,
    and it is 0 for a package without layers. *)
Theorem max_sprite_index_greatest (data : PyBytes.bytes) (pid : Z)
    (s0 s' : state) (r : Package) :
  parse_dat data pid s0 = Return r s' ->
  max_sprite_index r = fold_left Z.max (map sprite_index (all_layers r)) 0 /\
  0 <= max_sprite_index r /\
  Forall (fun l => sprite_index l <= max_sprite_index r) (all_layers r) /\
  (max_sprite_index r = 0 \/
   exists l, In l (all_layers r) /\ sprite_index l = max_sprite_index r) /\
  (all_layers r = [] -> max_sprite_index r = 0).
Proof.
  intros H. apply parse_dat_post in H as (_ & _ & _ & _ & _ & Hm & _).
  rewrite package_peaks_layers in Hm.
  destruct (fold_max_spec (map sprite_index (all_layers r)) 0)
    as (H0 & Hall & Htop).
  rewrite <- Hm in H0, Hall, Htop.
  split; [exact Hm|]. split; [exact H0|]. split; [|split].
  - rewrite Forall_map in Hall. exact Hall.
  - destruct Htop as [E|Hin]; [now left|right].
    apply in_map_iff in Hin as (l & El & Hin). now exists l.
  - intros E. rewrite Hm, E. reflexivity.
Qed.

Lemma max_sprite_index_greatest_witness :
  parse_dat one_layer_file 7 (init []) = Return one_layer_package one_layer_final /\
  max_sprite_index one_layer_package =
    fold_left Z.max (map sprite_index (all_layers one_layer_package)) 0 /\
  0 <= max_sprite_index one_layer_package /\
  Forall (fun l => sprite_index l <= max_sprite_index one_layer_package)
         (all_layers one_layer_package) /\
  (max_sprite_index one_layer_package = 0 \/
   exists l, In l (all_layers one_layer_package) /\
             sprite_index l = max_sprite_index one_layer_package) /\
  (all_layers one_layer_package = [] -> max_sprite_index one_layer_package = 0).
Proof.
  split; [exact parse_one_layer_file|].
  exact (max_sprite_index_greatest _ _ _ _ _ parse_one_layer_file).
Defined.

(** * Further properties of the code *)

(** ** What every pass of a loop returns *)

Section LoopElements.
Context {A : Type} (body : nat -> M A) (Q : nat -> A -> Prop).

Hypothesis body_elem : forall i s a s', body i s = Return a s' -> Q i a.

(** The k-th value a loop appends is one its body returned at index
    [i0 + k]. *)
Lemma for_range_elems (n i0 : nat) (s s' : state) (xs : list A) :
  for_range n i0 body s = Return xs s' -> Forall2 Q (seq i0 n) xs.
Proof.
  revert i0 s s' xs. induction n as [|n IH]; intros i0 s s' xs H; simpl in H.
  - run_steps H. constructor.
  - run_steps H. apply body_elem in R. apply IH in R0.
    cbn [seq]. now constructor.
Qed.

End LoopElements.

Lemma Forall2_seq_map {A} (ix : A -> nat) (ixs : list nat) (xs : list A) :
  Forall2 (fun i a => ix a = i) ixs xs -> map ix xs = ixs.
Proof.
  induction 1 as [|i a ixs xs Hi _ IH]; cbn [map]; [reflexivity|].
  now rewrite Hi, IH.
Qed.

Lemma Forall2_Forall_r {A B} (Q : A -> B -> Prop) (R : B -> Prop)
    (xs : list A) (ys : list B) :
  (forall a b, Q a b -> R b) -> Forall2 Q xs ys -> Forall R ys.
Proof.
  intros HQ. induction 1; constructor; eauto.
Qed.

Lemma Forall_flat_map {A B} (f : A -> list B) (Q : B -> Prop) (xs : list A) :
  Forall (fun a => Forall Q (f a)) xs -> Forall Q (flat_map f xs).
Proof.
  induction 1 as [|a xs Ha _ IH]; cbn [flat_map]; [constructor|].
  apply Forall_app. now split.
Qed.

(** A property of the elements of a laid out sequence, wherever they
    sit. *)
Lemma seq_at_somewhere {A} (size : A -> nat) (P : nat -> A -> Prop)
    (xs : list A) (o : nat) :
  seq_at size P o xs -> Forall (fun a => exists o', P o' a) xs.
Proof.
  revert o. induction xs as [|x xs IH]; simpl; intros o H; [constructor|].
  destruct H as [Hx Hxs]. constructor; [now exists o | eauto].
Qed.

(** The frames and the layers of a decoded package, each at some offset of
    the buffer. *)
Lemma anims_frames_somewhere (data : PyBytes.bytes) (o : nat)
    (anims : list Animation) :
  seq_at anim_size (anim_at data) o anims ->
  Forall (fun f => exists o', frame_at data o' f) (flat_map frames anims).
Proof.
  intros H. apply seq_at_somewhere in H. apply Forall_flat_map.
  eapply Forall_impl; [|exact H].
  intros a (o' & _ & Hf & _). now apply seq_at_somewhere in Hf.
Qed.

Lemma frames_layers_somewhere (data : PyBytes.bytes) (fs : list Frame) :
  Forall (fun f => exists o', frame_at data o' f) fs ->
  Forall (fun l => exists o', layer_at data o' l) (flat_map layers fs).
Proof.
  intros H. apply Forall_flat_map.
  eapply Forall_impl; [|exact H].
  intros f (o' & _ & _ & Hl & _). now apply seq_at_somewhere in Hl.
Qed.

Lemma all_layers_frames (r : Package) :
  all_layers r = flat_map layers (all_frames r).
Proof.
  unfold all_layers, all_frames.
  induction (animations r) as [|a rest IH]; [reflexivity|].
  cbn [flat_map]. now rewrite flat_map_app, IH.
Qed.

Section Ids.
Variable data : PyBytes.bytes.

Lemma parse_frame_id (i : nat) (s : state) (f : Frame) (s' : state) :
  parse_frame data i s = Return f s' -> frame_id f = i.
Proof.
  intros H. unfold parse_frame in H. run_steps H. reflexivity.
Qed.

Lemma parse_animation_ids (i : nat) (s : state) (a : Animation) (s' : state) :
  parse_animation data i s = Return a s' ->
  anim_id a = i /\ map frame_id (frames a) = seq 0 (List.length (frames a)).
Proof.
  intros H. unfold parse_animation in H. run_steps H.
  cbn [anim_id frames]. split; [reflexivity|].
  match goal with
  | Hl : for_range ?n _ _ _ = Return ?fs _ |- _ =>
      apply (for_range_elems _ (fun i f => frame_id f = i) parse_frame_id)
        in Hl as HF
  end.
  pose proof (Forall2_length HF) as L. rewrite length_seq in L.
  rewrite <- L. now apply Forall2_seq_map.
Qed.

End Ids.

(** X1. Every animation's ['id'] is its position in the package and every
    frame's ['id'] is its position in its animation, counted from 0. *)
Theorem ids_are_positions (data : PyBytes.bytes) (pid : Z) (s0 s' : state)
    (r : Package) :
  parse_dat data pid s0 = Return r s' ->
  map anim_id (animations r) = seq 0 (List.length (animations r)) /\
  Forall (fun a => map frame_id (frames a) = seq 0 (List.length (frames a)))
         (animations r).
Proof.
  intros H. unfold parse_dat in H. run_steps H. cbn [animations].
  match goal with
  | Hl : for_range _ _ _ _ = Return _ _ |- _ =>
      apply (for_range_elems _
               (fun i a => anim_id a = i /\
                  map frame_id (frames a) = seq 0 (List.length (frames a)))
               (parse_animation_ids data)) in Hl as HF
  end.
  pose proof (Forall2_length HF) as L. rewrite length_seq in L.
  split.
  - rewrite <- L. apply Forall2_seq_map.
    eapply Forall2_impl; [|exact HF]. intros i a [Hi _]. exact Hi.
  - eapply Forall2_Forall_r; [|exact HF]. intros i a [_ Hf]. exact Hf.
Qed.

Lemma ids_are_positions_witness :
  parse_dat one_layer_file 7 (init []) = Return one_layer_package one_layer_final /\
  map anim_id (animations one_layer_package) = [0%nat] /\
  Forall (fun a => map frame_id (frames a) = seq 0 (List.length (frames a)))
         (animations one_layer_package).
Proof.
  split; [exact parse_one_layer_file|].
  exact (ids_are_positions _ _ _ _ _ parse_one_layer_file).
Defined.

(** ** Counting the bytes *)

Lemma total_layer_size (ls : list Layer) :
  total layer_size ls = (12 * List.length ls)%nat.
Proof.
  unfold total. induction ls as [|l ls IH]; [reflexivity|].
  cbn [map List.length]. change (list_sum (?x :: ?r)) with (x + list_sum r)%nat.
  rewrite IH. unfold layer_size. lia.
Qed.

Lemma total_frame_size (fs : list Frame) :
  total frame_size fs =
  (2 * List.length fs + 12 * List.length (flat_map layers fs))%nat.
Proof.
  unfold total. induction fs as [|f fs IH]; [reflexivity|].
  cbn [map List.length flat_map].
  change (list_sum (?x :: ?r)) with (x + list_sum r)%nat.
  rewrite length_app, IH. unfold frame_size. rewrite total_layer_size. lia.
Qed.

Lemma total_anim_size (anims : list Animation) :
  total anim_size anims =
  (List.length anims + 2 * List.length (flat_map frames anims)
   + 12 * List.length (flat_map (fun a => flat_map layers (frames a)) anims))%nat.
Proof.
  unfold total. induction anims as [|a anims IH]; [reflexivity|].
  cbn [map List.length flat_map].
  change (list_sum (?x :: ?r)) with (x + list_sum r)%nat.
  rewrite !length_app, IH. unfold anim_size. rewrite total_frame_size. lia.
Qed.

(** X2. A decode that returns has read the header, one byte per animation,
    two per frame and twelve per layer, and no more than the file holds. *)
Theorem bytes_read_count (data : PyBytes.bytes) (pid : Z) (s0 s' : state)
    (r : Package) :
  parse_dat data pid s0 = Return r s' ->
  offset s' =
    (header_size pid + List.length (animations r)
     + 2 * List.length (all_frames r) + 12 * List.length (all_layers r))%nat /\
  (offset s' <= List.length data)%nat.
Proof.
  intros H. apply parse_dat_post in H.
  destruct H as (_ & _ & _ & _ & _ & _ & Ho & Hend & _).
  split; [|exact Hend].
  rewrite Ho, total_anim_size. unfold all_frames, all_layers. lia.
Qed.

Lemma bytes_read_count_witness :
  parse_dat one_layer_file 7 (init []) = Return one_layer_package one_layer_final /\
  offset one_layer_final = (2 + 1 + 2 * 1 + 12 * 1)%nat /\
  (offset one_layer_final <= List.length one_layer_file)%nat.
Proof.
  split; [exact parse_one_layer_file|].
  exact (bytes_read_count _ _ _ _ _ parse_one_layer_file).
Defined.

(** X3. What a decode that returns has printed: the line of num_packages
    when package_id is 0, then the lines of num_animations, of the maximum
    sprite index and of the bytes read against the file size, with the
    values of the returned package. *)
Theorem console_report (data : PyBytes.bytes) (pid : Z)
    (console : list string) (s' : state) (r : Package) :
  parse_dat data pid (init console) = Return r s' ->
  stdout s' =
    console ++
    (match num_packages r with
     | Some v => ["Num packages: " ++ py_str v]%string
     | None => []
     end) ++
    ["Num animations: " ++ py_str (num_animations r);
     "Max sprite index: " ++ py_str (max_sprite_index r);
     "Bytes read: " ++ py_str (Z.of_nat (offset s'))
       ++ ", File size: " ++ py_str (Z.of_nat (List.length data))]%string /\
  List.length (stdout s') =
    (List.length console + if (pid =? 0)%Z then 4 else 3)%nat.
Proof.
  intros H. apply parse_dat_post in H.
  destruct H as (_ & Hnp & _ & _ & _ & _ & _ & _ & Hout).
  cbn [stdout init] in Hout. split; [exact Hout|].
  rewrite Hout, !length_app. cbn [List.length].
  destruct (pid =? 0).
  - destruct Hnp as (v & _ & ->). cbn [List.length]. lia.
  - rewrite Hnp. cbn [List.length]. lia.
Qed.

Lemma console_report_witness :
  parse_dat one_layer_file 7 (init []) = Return one_layer_package one_layer_final /\
  stdout one_layer_final =
    ["Num animations: 1"; "Max sprite index: 1";
     "Bytes read: 17, File size: 17"]%string /\
  List.length (stdout one_layer_final) = 3%nat.
Proof.
  split; [exact parse_one_layer_file|].
  exact (console_report _ _ _ _ _ parse_one_layer_file).
Defined.

(** ** Slices inside the buffer *)

Lemma slice_inside (data : PyBytes.bytes) (a b : nat) :
  (a <= b)%nat -> (b <= List.length data)%nat ->
  List.length (PyBytes.slice data a b) = (b - a)%nat.
Proof.
  intros Hab Hb. unfold PyBytes.slice.
  rewrite length_firstn, length_skipn. lia.
Qed.

Lemma unpack_full (f : PyStruct.format) (buf : PyBytes.bytes) :
  List.length buf = PyStruct.calcsize f ->
  exists v, PyStruct.unpack f buf = inr v /\
            (f <> PyStruct.SByte -> v = PyStruct.big_endian buf).
Proof.
  intros L. unfold PyStruct.unpack. rewrite L, Nat.eqb_refl.
  destruct f; eexists; (split; [reflexivity|]); intros N;
    [reflexivity | reflexivity | congruence].
Qed.

Lemma big_endian_u16 (buf : PyBytes.bytes) :
  List.length buf = 2%nat -> 0 <= PyStruct.big_endian buf <= 65535.
Proof.
  intros L. destruct (unpack_full PyStruct.BE_H buf L) as (v & Hu & Hv).
  rewrite <- Hv by discriminate.
  exact (BytesFacts.unpack_BE_H_range _ _ Hu).
Qed.

Lemma layer_at_rect (data : PyBytes.bytes) (o : nat) (l : Layer) :
  layer_at data o l ->
  0 <= rect_x (rect l) <= 65535 /\ 0 <= rect_y (rect l) <= 65535 /\
  0 <= rect_w (rect l) <= 65535 /\ 0 <= rect_h (rect l) <= 65535.
Proof.
  intros (Hend & _ & -> & -> & -> & -> & _).
  repeat split; apply big_endian_u16; rewrite slice_inside; lia.
Qed.

(** X4. Bytes after the last animation are not read: appending anything to
    a buffer that decodes gives the same package and the same count of
    bytes read. *)
Theorem trailing_bytes_ignored (data ext : PyBytes.bytes) (pid : Z)
    (s0 s' : state) (r : Package) :
  parse_dat data pid s0 = Return r s' ->
  exists s'', parse_dat (data ++ ext) pid s0 = Return r s'' /\
              offset s'' = offset s'.
Proof.
  intros H. exact (parse_dat_app data ext pid s0 s' r H).
Qed.

Lemma trailing_bytes_ignored_witness :
  parse_dat one_layer_file 7 (init []) = Return one_layer_package one_layer_final /\
  exists s'', parse_dat (one_layer_file ++ [xff; xff]) 7 (init []) =
                Return one_layer_package s'' /\
              offset s'' = offset one_layer_final.
Proof.
  split; [exact parse_one_layer_file|].
  exact (trailing_bytes_ignored _ [xff; xff] _ _ _ _ parse_one_layer_file).
Defined.

(** X5. The widths of the reads bound what a decode returns:
    num_animations and the four rect fields of every layer are in
    [0, 65535], num_packages (when present) is in [0, 255], and no
    animation has more than 255 frames nor a frame more than 255 layers. *)
Theorem decoded_bounds (data : PyBytes.bytes) (pid : Z) (s0 s' : state)
    (r : Package) :
  parse_dat data pid s0 = Return r s' ->
  0 <= num_animations r <= 65535 /\
  (forall v, num_packages r = Some v -> 0 <= v <= 255) /\
  Forall (fun a => (List.length (frames a) <= 255)%nat) (animations r) /\
  Forall (fun f => (List.length (layers f) <= 255)%nat) (all_frames r) /\
  Forall (fun l =>
            0 <= rect_x (rect l) <= 65535 /\ 0 <= rect_y (rect l) <= 65535 /\
            0 <= rect_w (rect l) <= 65535 /\ 0 <= rect_h (rect l) <= 65535)
         (all_layers r).
Proof.
  intros H. apply parse_dat_post in H.
  destruct H as (_ & Hnp & Hna & _ & Hseq & _).
  pose proof (anims_frames_somewhere _ _ _ Hseq) as Hfs.
  pose proof (frames_layers_somewhere _ _ Hfs) as Hls.
  split; [exact (BytesFacts.unpack_BE_H_range _ _ Hna)|].
  split; [|split; [|split]].
  - intros v Hv. destruct (pid =? 0).
    + destruct Hnp as (w & Hw & E). rewrite E in Hv. injection Hv as ->.
      exact (proj2 (BytesFacts.index_inr _ _ _ Hw)).
    + congruence.
  - apply seq_at_somewhere in Hseq. eapply Forall_impl; [|exact Hseq].
    intros a (o & Hc & _). apply BytesFacts.index_inr in Hc. lia.
  - eapply Forall_impl; [|exact Hfs].
    intros f (o & _ & Hc & _). apply BytesFacts.index_inr in Hc. lia.
  - rewrite all_layers_frames. eapply Forall_impl; [|exact Hls].
    intros l (o & Hl). exact (layer_at_rect _ _ _ Hl).
Qed.

Lemma decoded_bounds_witness :
  parse_dat one_layer_file 7 (init []) = Return one_layer_package one_layer_final /\
  0 <= num_animations one_layer_package <= 65535 /\
  Forall (fun a => (List.length (frames a) <= 255)%nat)
         (animations one_layer_package).
Proof.
  split; [exact parse_one_layer_file|].
  pose proof (decoded_bounds _ _ _ _ _ parse_one_layer_file) as (H1 & _ & H3 & _).
  split; [exact H1 | exact H3].
Defined.

(** X6. Where a decode that returns found everything: the animations sit
    one after the other from the end of the header, each a count byte
    followed by its frames, each frame a signed delay byte and a count byte
    followed by its layers, each layer twelve bytes whose four rect fields
    and packed word are the big-endian readings of bytes 0-1, 2-3, 4-5, 6-7
    and 8-11. *)
Theorem decoded_layout (data : PyBytes.bytes) (pid : Z) (s0 s' : state)
    (r : Package) :
  parse_dat data pid s0 = Return r s' ->
  PyStruct.unpack PyStruct.BE_H
    (PyBytes.slice data (header_size pid - 2) (header_size pid))
    = inr (num_animations r) /\
  seq_at anim_size (anim_at data) (header_size pid) (animations r).
Proof.
  intros H. apply parse_dat_post in H.
  destruct H as (_ & _ & Hna & _ & Hseq & _).
  split; [|exact Hseq].
  unfold header_size. destruct (pid =? 0); exact Hna.
Qed.

Lemma decoded_layout_witness :
  parse_dat one_layer_file 7 (init []) = Return one_layer_package one_layer_final /\
  seq_at anim_size (anim_at one_layer_file) 2 (animations one_layer_package).
Proof.
  split; [exact parse_one_layer_file|].
  exact (proj2 (decoded_layout _ _ _ _ _ parse_one_layer_file)).
Defined.

(** ** The bytes behind a decoded package *)

Section SameBytes.
Import PyBytes PyStruct BytesFacts.

Lemma u8_inj (a b : byte) : u8 a = u8 b -> a = b.
Proof.
  unfold u8. intros H. apply N2Z.inj in H.
  pose proof (Byte.of_to_N a) as Ha. rewrite H, Byte.of_to_N in Ha.
  congruence.
Qed.

Lemma fold_big_endian_inj (b1 b2 : bytes) (acc1 acc2 : Z) :
  List.length b1 = List.length b2 ->
  fold_left (fun acc b => acc * 256 + u8 b) b1 acc1 =
  fold_left (fun acc b => acc * 256 + u8 b) b2 acc2 ->
  acc1 = acc2 /\ b1 = b2.
Proof.
  revert b2 acc1 acc2.
  induction b1 as [|x b1 IH]; intros [|y b2] acc1 acc2 L H;
    try discriminate L; cbn [fold_left] in H.
  - now split.
  - injection L as L. destruct (IH _ _ _ L H) as [Hacc ->].
    pose proof (u8_range x). pose proof (u8_range y).
    assert (acc1 = acc2) by lia. subst acc2.
    split; [reflexivity|]. f_equal. apply u8_inj. lia.
Qed.

(** Among buffers of one length, the big-endian reading tells the bytes. *)
Lemma big_endian_inj (b1 b2 : bytes) :
  List.length b1 = List.length b2 -> big_endian b1 = big_endian b2 -> b1 = b2.
Proof.
  intros L H. exact (proj2 (fold_big_endian_inj _ _ _ _ L H)).
Qed.

Lemma signed8_u8_inj (a b : byte) : signed8 (u8 a) = signed8 (u8 b) -> a = b.
Proof.
  intros H. apply u8_inj. pose proof (u8_range a). pose proof (u8_range b).
  unfold signed8 in H.
  destruct (Z.ltb_spec (u8 a) 128), (Z.ltb_spec (u8 b) 128); lia.
Qed.

Lemma slice_split (d : bytes) (a m n : nat) :
  slice d a (a + (m + n)) = slice d a (a + m) ++ slice d (a + m) (a + m + n).
Proof.
  unfold slice.
  replace (a + (m + n) - a)%nat with (m + n)%nat by lia.
  replace (a + m - a)%nat with m by lia.
  replace (a + m + n - (a + m))%nat with n by lia.
  replace (a + m)%nat with (m + a)%nat by lia.
  rewrite <- (skipn_skipn m a d).
  generalize (skipn a d) as l. clear. intros l. revert l.
  induction m as [|m IH]; intros l; [reflexivity|].
  destruct l as [|x l]; cbn [Nat.add firstn skipn app].
  - now rewrite firstn_nil.
  - now rewrite IH.
Qed.

Lemma slice_one (d : bytes) (i : nat) (v : Z) :
  index d i = inr v -> exists b, slice d i (i + 1) = [b] /\ u8 b = v.
Proof.
  unfold index, slice. replace (i + 1 - i)%nat with 1%nat by lia.
  rewrite <- (Nat.add_0_r i) at 1. rewrite <- nth_error_skipn.
  destruct (skipn i d) as [|b l]; cbn [nth_error firstn]; [discriminate|].
  intros H. injection H as <-. now exists b.
Qed.

Variables d1 d2 : bytes.

Lemma same_index (i : nat) (v : Z) :
  index d1 i = inr v -> index d2 i = inr v ->
  slice d1 i (i + 1) = slice d2 i (i + 1).
Proof.
  intros H1 H2.
  apply slice_one in H1 as (b1 & -> & E1).
  apply slice_one in H2 as (b2 & -> & E2).
  f_equal. apply u8_inj. congruence.
Qed.

Lemma same_unpack (f : format) (a : nat) (v : Z) :
  unpack f (slice d1 a (a + calcsize f)) = inr v ->
  unpack f (slice d2 a (a + calcsize f)) = inr v ->
  slice d1 a (a + calcsize f) = slice d2 a (a + calcsize f).
Proof.
  intros H1 H2.
  pose proof (unpack_length _ _ _ H1) as L1.
  pose proof (unpack_length _ _ _ H2) as L2.
  destruct f.
  - apply big_endian_inj; [congruence|].
    destruct (unpack_full _ _ L1) as (v1 & U1 & B1).
    destruct (unpack_full _ _ L2) as (v2 & U2 & B2).
    rewrite <- B1, <- B2 by discriminate. congruence.
  - apply big_endian_inj; [congruence|].
    destruct (unpack_full _ _ L1) as (v1 & U1 & B1).
    destruct (unpack_full _ _ L2) as (v2 & U2 & B2).
    rewrite <- B1, <- B2 by discriminate. congruence.
  - apply unpack_SByte in H1 as (b1 & -> & E1).
    apply unpack_SByte in H2 as (b2 & -> & E2).
    f_equal. apply signed8_u8_inj. congruence.
Qed.

Lemma same_big_endian (a k : nat) :
  (a + k <= List.length d1)%nat -> (a + k <= List.length d2)%nat ->
  big_endian (slice d1 a (a + k)) = big_endian (slice d2 a (a + k)) ->
  slice d1 a (a + k) = slice d2 a (a + k).
Proof.
  intros L1 L2. apply big_endian_inj.
  rewrite !slice_inside by lia. reflexivity.
Qed.

Lemma same_layer (o : nat) (l : Layer) :
  layer_at d1 o l -> layer_at d2 o l ->
  slice d1 o (o + layer_size l) = slice d2 o (o + layer_size l).
Proof.
  intros (L1 & _ & X1 & Y1 & W1 & H1 & P1) (L2 & _ & X2 & Y2 & W2 & H2 & P2).
  unfold layer_size.
  change 12%nat with (2 + (2 + (2 + (2 + 4))))%nat.
  rewrite !slice_split.
  replace (o + 2 + 2)%nat with (o + 4)%nat in * by lia.
  replace (o + 4 + 2)%nat with (o + 6)%nat in * by lia.
  replace (o + 6 + 2)%nat with (o + 8)%nat in * by lia.
  replace (o + 8 + 4)%nat with (o + 12)%nat in * by lia.
  f_equal; [|f_equal; [|f_equal; [|f_equal]]].
  - apply same_big_endian; [lia|lia|congruence].
  - replace (o + 4)%nat with (o + 2 + 2)%nat by lia.
    apply same_big_endian; [lia|lia|].
    replace (o + 2 + 2)%nat with (o + 4)%nat by lia. congruence.
  - replace (o + 6)%nat with (o + 4 + 2)%nat by lia.
    apply same_big_endian; [lia|lia|].
    replace (o + 4 + 2)%nat with (o + 6)%nat by lia. congruence.
  - replace (o + 8)%nat with (o + 6 + 2)%nat by lia.
    apply same_big_endian; [lia|lia|].
    replace (o + 6 + 2)%nat with (o + 8)%nat by lia. congruence.
  - replace (o + 12)%nat with (o + 8 + 4)%nat by lia.
    apply same_big_endian; [lia|lia|].
    replace (o + 8 + 4)%nat with (o + 12)%nat by lia. congruence.
Qed.

(** Sequences that decode to the same elements at the same place in two
    buffers cover the same bytes there. *)
Lemma same_seq {A} (size : A -> nat) (P1 P2 : nat -> A -> Prop) :
  (forall o x, P1 o x -> P2 o x ->
     slice d1 o (o + size x) = slice d2 o (o + size x)) ->
  forall xs o, seq_at size P1 o xs -> seq_at size P2 o xs ->
    slice d1 o (o + total size xs) = slice d2 o (o + total size xs).
Proof.
  intros Hx xs. unfold total.
  induction xs as [|x xs IH]; intros o S1 S2.
  - change (list_sum (map size [])) with 0%nat. unfold slice.
    replace (o + 0 - o)%nat with 0%nat by lia. reflexivity.
  - cbn [map]. change (list_sum (?a :: ?r)) with (a + list_sum r)%nat.
    destruct S1 as [Q1 S1]. destruct S2 as [Q2 S2].
    rewrite !slice_split. f_equal; [now apply Hx | now apply IH].
Qed.

Lemma same_frame (o : nat) (f : Frame) :
  frame_at d1 o f -> frame_at d2 o f ->
  slice d1 o (o + frame_size f) = slice d2 o (o + frame_size f).
Proof.
  intros (D1 & C1 & S1 & _) (D2 & C2 & S2 & _).
  unfold frame_size.
  change (2 + total layer_size (layers f))%nat
    with (1 + (1 + total layer_size (layers f)))%nat.
  rewrite !slice_split. f_equal; [|f_equal].
  - exact (same_unpack SByte o _ D1 D2).
  - exact (same_index _ _ C1 C2).
  - replace (o + 1 + 1)%nat with (o + 2)%nat by lia.
    exact (same_seq layer_size _ _ same_layer _ _ S1 S2).
Qed.

Lemma same_anim (o : nat) (a : Animation) :
  anim_at d1 o a -> anim_at d2 o a ->
  slice d1 o (o + anim_size a) = slice d2 o (o + anim_size a).
Proof.
  intros (C1 & S1 & _) (C2 & S2 & _).
  unfold anim_size. rewrite !slice_split. f_equal.
  - exact (same_index _ _ C1 C2).
  - exact (same_seq frame_size _ _ same_frame _ _ S1 S2).
Qed.

End SameBytes.

(** X7. The decode loses nothing of what it read: two buffers that decode
    to the same package were read to the same offset and hold the same
    bytes up to it. *)
Theorem package_determines_bytes (d1 d2 : PyBytes.bytes) (pid : Z)
    (s1 s2 s1' s2' : state) (r : Package) :
  parse_dat d1 pid s1 = Return r s1' ->
  parse_dat d2 pid s2 = Return r s2' ->
  offset s1' = offset s2' /\
  firstn (offset s1') d1 = firstn (offset s2') d2.
Proof.
  intros H1 H2. apply parse_dat_post in H1, H2.
  destruct H1 as (_ & Np1 & Na1 & _ & Sq1 & _ & O1 & _).
  destruct H2 as (_ & Np2 & Na2 & _ & Sq2 & _ & O2 & _).
  split; [congruence|]. rewrite O1, O2.
  assert (F : forall d n, firstn n d = PyBytes.slice d 0 (0 + n)).
  { intros d n. unfold PyBytes.slice. cbn [skipn Nat.add].
    now rewrite Nat.sub_0_r. }
  rewrite !F, !slice_split. f_equal.
  - unfold header_size. destruct (pid =? 0).
    + change 3%nat with (1 + 2)%nat. rewrite !slice_split. f_equal.
      * destruct Np1 as (v1 & I1 & E1). destruct Np2 as (v2 & I2 & E2).
        apply (same_index _ _ 0%nat v1); congruence.
      * exact (same_unpack _ _ PyStruct.BE_H 1%nat _ Na1 Na2).
    + exact (same_unpack _ _ PyStruct.BE_H 0%nat _ Na1 Na2).
  - cbn [Nat.add].
    exact (same_seq _ _ anim_size _ _ (same_anim d1 d2) _ _ Sq1 Sq2).
Qed.

Lemma package_determines_bytes_witness :
  parse_dat one_layer_file 7 (init []) = Return one_layer_package one_layer_final /\
  (exists s2', parse_dat (one_layer_file ++ [xff]) 7 (init []) =
               Return one_layer_package s2' /\
     firstn (offset one_layer_final) one_layer_file =
     firstn (offset s2') (one_layer_file ++ [xff])).
Proof.
  split; [exact parse_one_layer_file|].
  destruct (parse_dat_app one_layer_file [xff] 7 _ _ _ parse_one_layer_file)
    as (s2' & H2 & _).
  exists s2'. split; [exact H2|].
  exact (proj2 (package_determines_bytes _ _ _ _ _ _ _ _
                  parse_one_layer_file H2)).
Defined.

(** ** Files too short for their header *)

(** X8. A file shorter than its header makes the decode raise before any
    animation is read: with package_id 0 the empty file raises
    [IndexError] with nothing printed, a file of one or two bytes raises
    [struct.error] after the line of num_packages was printed; with
    another package_id a file of fewer than two bytes raises
    [struct.error] with nothing printed. *)
Theorem short_header_raises (data : PyBytes.bytes) (pid : Z)
    (console : list string) :
  (pid = 0 -> data = [] ->
   parse_dat data pid (init console) = Raise IndexError console) /\
  (pid = 0 -> forall b rest, data = b :: rest -> (List.length rest < 2)%nat ->
   parse_dat data pid (init console) =
   Raise (StructError 2)
         (console ++ ["Num packages: " ++ py_str (PyBytes.u8 b)]%string)) /\
  (pid <> 0 -> (List.length data < 2)%nat ->
   parse_dat data pid (init console) = Raise (StructError 2) console).
Proof.
  split; [|split].
  - intros -> ->. reflexivity.
  - intros -> b rest -> L.
    destruct rest as [|c [|d rest]]; [reflexivity | reflexivity |].
    cbn [List.length] in L. lia.
  - intros N L. apply Z.eqb_neq in N.
    unfold parse_dat, parse_header, bind. cbn [set_offset init].
    rewrite N.
    destruct data as [|a [|c rest]]; [reflexivity | reflexivity |].
    cbn [List.length] in L. lia.
Qed.

Lemma short_header_raises_witness :
  parse_dat [] 0 (init []) = Raise IndexError [] /\
  parse_dat [x05; x00] 0 (init []) =
    Raise (StructError 2) ["Num packages: 5"]%string /\
  parse_dat [x00] 7 (init []) = Raise (StructError 2) [].
Proof.
  split; [|split].
  - exact (proj1 (short_header_raises [] 0 []) eq_refl eq_refl).
  - apply (proj1 (proj2 (short_header_raises [x05; x00] 0 []))
             eq_refl x05 [x00] eq_refl).
    cbn [List.length]. lia.
  - apply (proj2 (proj2 (short_header_raises [x00] 7 []))).
    + discriminate.
    + cbn [List.length]. lia.
Defined.

(** ** Packages without animations *)

(** X9. When the count of animations in the header is 0 the decode
    returns, whatever follows the header: no animation, a maximum sprite
    index of 0, and the header as the only bytes read. *)
Theorem zero_animations (data : PyBytes.bytes) (pid : Z)
    (console : list string) :
  PyStruct.unpack PyStruct.BE_H
    (PyBytes.slice data (header_size pid - 2) (header_size pid)) = inr 0 ->
  exists r s',
    parse_dat data pid (init console) = Return r s' /\
    animations r = [] /\ num_animations r = 0 /\ max_sprite_index r = 0 /\
    offset s' = header_size pid.
Proof.
  intros H. unfold header_size in *.
  unfold parse_dat, parse_header, bind. cbn [set_offset init].
  destruct (pid =? 0).
  - cbn [Nat.sub] in H.
    pose proof (BytesFacts.unpack_length _ _ _ H) as L.
    apply (BytesFacts.slice_full data 1 2) in L; [|lia].
    destruct data as [|b rest]; [cbn [List.length] in L; lia|].
    unfold byte_at_offset, unpack_at_offset, bind, get_offset, lift.
    cbn [offset PyBytes.index nth_error advance print ret Nat.add
         max_sprite_idx stdout].
    change (1 + 2)%nat with 3%nat.
    rewrite H. cbn. do 2 eexists. split; [reflexivity|].
    repeat split.
  - cbn [Nat.sub] in H.
    unfold byte_at_offset, unpack_at_offset, bind, get_offset, lift.
    cbn [offset ret Nat.add]. rewrite H. cbn.
    do 2 eexists. split; [reflexivity|]. repeat split.
Qed.

Lemma zero_animations_witness :
  exists r s',
    parse_dat [x00; x00; xff; xff] 7 (init []) = Return r s' /\
    animations r = [] /\ num_animations r = 0 /\ max_sprite_index r = 0 /\
    offset s' = 2%nat.
Proof.
  apply (zero_animations [x00; x00; xff; xff] 7 []). vm_compute. reflexivity.
Defined.

(** ** The raw packed word *)

Section Raw.
Variable data : PyBytes.bytes.

Lemma parse_layer_raw (i : nat) (s : state) (l : Layer) (s' : state) :
  parse_layer data i s = Return l s' -> packed_raw l = py_hex (packed_of l).
Proof.
  intros H. unfold parse_layer in H. run_steps H.
  match goal with
  | Hb : (if _ then _ else _) _ = Return _ _ |- _ => clear Hb
  end.
  unfold packed_of, py_hex. cbn [packed_raw].
  now rewrite HexString.to_Z_of_Z.
Qed.

Lemma parse_frame_raw (i : nat) (s : state) (f : Frame) (s' : state) :
  parse_frame data i s = Return f s' ->
  Forall (fun l => packed_raw l = py_hex (packed_of l)) (layers f).
Proof.
  intros H. unfold parse_frame in H. run_steps H. cbn [layers].
  match goal with
  | Hl : for_range _ _ _ _ = Return _ _ |- _ =>
      apply (for_range_elems _
               (fun _ l => packed_raw l = py_hex (packed_of l))
               parse_layer_raw) in Hl as HF
  end.
  eapply Forall2_Forall_r; [|exact HF]. intros ? ? E. exact E.
Qed.

Lemma parse_animation_raw (i : nat) (s : state) (a : Animation) (s' : state) :
  parse_animation data i s = Return a s' ->
  Forall (fun l => packed_raw l = py_hex (packed_of l))
         (flat_map layers (frames a)).
Proof.
  intros H. unfold parse_animation in H. run_steps H. cbn [frames].
  match goal with
  | Hl : for_range _ _ _ _ = Return _ _ |- _ =>
      apply (for_range_elems _
               (fun _ f => Forall (fun l => packed_raw l = py_hex (packed_of l))
                                  (layers f))
               parse_frame_raw) in Hl as HF
  end.
  apply Forall_flat_map.
  eapply Forall2_Forall_r; [|exact HF]. intros ? ? E. exact E.
Qed.

End Raw.

(** ** The path of the JSON file *)

Lemma replace_absent (old new s : string) :
  occurs old s = false -> replace_from old new 0 s = s.
Proof.
  induction s as [|c s IH]; [reflexivity|].
  cbn [occurs replace_from].
  destruct (strip_prefix old (String c s)); [discriminate|].
  intros H. now rewrite IH.
Qed.

(** Passing over the rest of an occurrence. *)
Lemma replace_skip (old new : string) (t s : string) :
  replace_from old new (String.length t) (t ++ s) = replace_from old new 0 s.
Proof.
  induction t as [|c t IH]; [reflexivity|].
  cbn [String.length append replace_from]. exact IH.
Qed.

Lemma strip_prefix_app (p s : string) : strip_prefix p (p ++ s) = Some s.
Proof.
  induction p as [|a p IH]; [reflexivity|].
  cbn [append strip_prefix]. now rewrite Ascii.eqb_refl.
Qed.

(** At an occurrence of [old], [new] is put and the scan goes on after
    the occurrence. *)
Lemma replace_at_occurrence (c : Ascii.ascii) (t new s : string) :
  replace_from (String c t) new 0 (String c t ++ s) =
  (new ++ replace_from (String c t) new 0 s)%string.
Proof.
  cbn [append replace_from].
  change (String c (t ++ s))%string with (String c t ++ s)%string.
  rewrite strip_prefix_app. cbn [String.length Nat.sub].
  rewrite Nat.sub_0_r. now rewrite replace_skip.
Qed.

(** No occurrence of [".dat"] starts inside [a] and ends inside a
    following [".dat"]. *)
Lemma no_straddle (a b : string) :
  occurs ".dat" a = false ->
  forall c a', a = String c a' ->
  strip_prefix ".dat" (a ++ ".dat" ++ b) = None.
Proof.
  intros H c a' ->. cbn [occurs] in H.
  destruct (strip_prefix ".dat" (String c a')) eqn:E; [discriminate|].
  clear H. cbn [append strip_prefix] in E |- *.
  destruct (Ascii.eqb _ c); [|reflexivity].
  destruct a' as [|c1 a1]; [reflexivity|].
  cbn [append strip_prefix] in E |- *.
  destruct (Ascii.eqb _ c1); [|reflexivity].
  destruct a1 as [|c2 a2]; [reflexivity|].
  cbn [append strip_prefix] in E |- *.
  destruct (Ascii.eqb _ c2); [|reflexivity].
  destruct a2 as [|c3 a3]; [reflexivity|].
  cbn [append strip_prefix] in E |- *.
  destruct (Ascii.eqb _ c3); [discriminate|reflexivity].
Qed.

(** X13. A path in which [".dat"] does not occur is its own output path:
    the path opened for writing the JSON is the path that was read. *)
Theorem output_path_without_dat (filepath : string) :
  occurs ".dat" filepath = false -> output_path filepath = filepath.
Proof.
  intros H. unfold output_path, str_replace. now apply replace_absent.
Qed.

Lemma output_path_without_dat_witness :
  output_path "anims7.bin" = "anims7.bin"%string.
Proof.
  apply (output_path_without_dat "anims7.bin"). reflexivity.
Defined.

(** X14. The first [".dat"] of a path becomes ["_parsed.json"], and so
    does every later one: what follows it is rewritten in the same way.
    A path that ends in its only [".dat"] gets ["_parsed.json"] in its
    place. *)
Theorem output_path_replaces (a b : string) :
  occurs ".dat" a = false ->
  output_path (a ++ ".dat" ++ b) = (a ++ "_parsed.json" ++ output_path b)%string /\
  output_path (a ++ ".dat") = (a ++ "_parsed.json")%string.
Proof.
  intros H.
  assert (G : forall b', output_path (a ++ ".dat" ++ b')
                         = (a ++ "_parsed.json" ++ output_path b')%string).
  { intros b'. unfold output_path, str_replace.
    induction a as [|c a IH].
    - exact (replace_at_occurrence _ _ _ b').
    - pose proof (no_straddle (String c a) b' H c a eq_refl) as N.
      cbn [append] in N |- *. cbn [replace_from].
      cbn [append] in N. rewrite N. f_equal. apply IH.
      cbn [occurs] in H.
      destruct (strip_prefix ".dat" (String c a)); [discriminate|exact H]. }
  split; [apply G|].
  specialize (G EmptyString).
  replace (".dat" ++ "")%string with ".dat"%string in G by reflexivity.
  rewrite G. reflexivity.
Qed.

Lemma output_path_replaces_witness :
  output_path "a.data/anims7.dat" = "a_parsed.jsona/anims7_parsed.json"%string /\
  output_path "anims7.dat" = "anims7_parsed.json"%string.
Proof.
  split.
  - exact (proj1 (output_path_replaces "a" "a/anims7.dat" eq_refl)).
  - exact (proj2 (output_path_replaces "anims7" "" eq_refl)).
Defined.

(** * The statements tied to the bytes of the file *)

(** ** From the layout to the layers at their own offsets *)

Section Tied.
Variable data : PyBytes.bytes.
Variable L : PyBytes.bytes -> nat -> Layer -> Prop.
Variable Q : Layer -> Prop.

Hypothesis L_of_layer_at : forall o l, layer_at data o l -> Q l -> L data o l.

Lemma layers_tied (ls : list Layer) (o : nat) :
  seq_at layer_size (layer_at data) o ls -> Forall Q ls ->
  seq_at layer_size (L data) o ls.
Proof.
  revert o. induction ls as [|l ls IH]; intros o H HQ; [exact I|].
  destruct H as [Hl Hls]. inversion HQ as [|? ? Ql Qls]; subst.
  split; [now apply L_of_layer_at | now apply IH].
Qed.

Lemma frames_tied (fs : list Frame) (o : nat) :
  seq_at frame_size (frame_at data) o fs -> Forall Q (flat_map layers fs) ->
  seq_at frame_size (frame_with L data) o fs.
Proof.
  revert o. induction fs as [|f fs IH]; intros o H HQ; [exact I|].
  destruct H as [(_ & Hc & Hl & _) Hfs].
  cbn [flat_map] in HQ. apply Forall_app in HQ as [Qf Qfs].
  split; [|now apply IH].
  split; [exact Hc | now apply layers_tied].
Qed.

Lemma anims_tied (anims : list Animation) (o : nat) :
  seq_at anim_size (anim_at data) o anims ->
  Forall Q (flat_map (fun a => flat_map layers (frames a)) anims) ->
  seq_at anim_size (anim_with L data) o anims.
Proof.
  revert o. induction anims as [|a anims IH]; intros o H HQ; [exact I|].
  destruct H as [(Hc & Hf & _) Has].
  cbn [flat_map] in HQ. apply Forall_app in HQ as [Qa Qas].
  split; [|now apply IH].
  split; [exact Hc | now apply frames_tied].
Qed.

Lemma parse_dat_tied (pid : Z) (s0 s' : state) (r : Package) :
  parse_dat data pid s0 = Return r s' ->
  Forall Q (all_layers r) ->
  package_with L data pid r.
Proof.
  intros H HQ. apply parse_dat_post in H.
  destruct H as (_ & _ & Hna & Hlen & Hseq & _).
  split; [|now apply anims_tied].
  pose proof (BytesFacts.unpack_BE_H_range _ _ Hna) as R.
  rewrite Hlen, Z2Nat.id by lia.
  unfold header_size. destruct (pid =? 0); exact Hna.
Qed.

End Tied.

Lemma Forall_True {A} (xs : list A) : Forall (fun _ => True) xs.
Proof. induction xs; constructor; auto. Qed.

Lemma layer_at_unpacks (data : PyBytes.bytes) (o : nat) (l : Layer) :
  layer_at data o l -> layer_unpacks data o l.
Proof.
  intros (Hend & (_ & Hs & Hx & Hy & Ht) & _ & _ & _ & _ & Hp).
  split; [exact Hend|]. unfold fields_of_packed, packed_at.
  rewrite <- Hp. now repeat split.
Qed.

Lemma layer_at_repacks (data : PyBytes.bytes) (o : nat) (l : Layer) :
  layer_at data o l -> layer_repacks data o l.
Proof.
  unfold layer_repacks.
  intros (Hend & (Hr & -> & -> & -> & ->) & _ & _ & _ & _ & Hp).
  split; [exact Hend|]. unfold packed_at. rewrite <- Hp.
  split; [exact Hr|]. now apply BitFields.repack_unpack.
Qed.

Lemma layer_at_raw (data : PyBytes.bytes) (o : nat) (l : Layer) :
  layer_at data o l -> packed_raw l = py_hex (packed_of l) ->
  layer_raw data o l.
Proof.
  intros (Hend & _ & _ & _ & _ & _ & Hp) Hraw.
  split; [exact Hend|]. unfold packed_at. now rewrite <- Hp.
Qed.

Lemma parse_dat_raw (data : PyBytes.bytes) (pid : Z) (s0 s' : state)
    (r : Package) :
  parse_dat data pid s0 = Return r s' ->
  Forall (fun l => packed_raw l = py_hex (packed_of l)) (all_layers r).
Proof.
  intros H. unfold parse_dat in H. run_steps H. unfold all_layers.
  cbn [animations].
  match goal with
  | Hl : for_range _ _ _ _ = Return _ _ |- _ =>
      apply (for_range_elems _
               (fun _ a => Forall (fun l => packed_raw l = py_hex (packed_of l))
                                  (flat_map layers (frames a)))
               (parse_animation_raw data)) in Hl as HF
  end.
  apply Forall_flat_map.
  eapply Forall2_Forall_r; [|exact HF]. intros ? ? E. exact E.
Qed.

(** The one layer of the small file sits at offset 5, and the word there
    is 0x00800000. *)
Lemma one_layer_word : packed_at one_layer_file 5 = 0x00800000.
Proof. reflexivity. Qed.

(** C3. Every layer the file declares is decoded, at its own offset, with
    the bit fields of the 32-bit word [p] read big-endian from bytes 8-11
    of its twelve: sprite_index = (p >> 23) & 0x1FF,
    x_offset = ((p >> 13) & 0x3FF) - 512, y_offset = ((p >> 3) & 0x3FF) - 512
    and transform = p & 0x7; a layer whose word is 0x00800000 gets
    sprite_index 1, both offsets -512 and transform 0. *)
Theorem packed_bit_fields (data : PyBytes.bytes) (pid : Z) (s0 s' : state)
    (r : Package) :
  parse_dat data pid s0 = Return r s' ->
  package_with layer_unpacks data pid r /\
  (forall o l, layer_unpacks data o l -> packed_at data o = 0x00800000 ->
     sprite_index l = 1 /\ x_offset l = -512 /\ y_offset l = -512 /\
     transform l = 0).
Proof.
  intros H. split.
  - apply (parse_dat_tied data layer_unpacks (fun _ => True)) with (s0 := s0) (s' := s');
      [|exact H|apply Forall_True].
    intros o l Hl _. now apply layer_at_unpacks.
  - intros o l (_ & Hs & Hx & Hy & Ht) Hp. rewrite Hp in Hs, Hx, Hy, Ht.
    rewrite Hs, Hx, Hy, Ht. repeat split; reflexivity.
Qed.

Lemma packed_bit_fields_witness :
  parse_dat one_layer_file 7 (init []) = Return one_layer_package one_layer_final /\
  package_with layer_unpacks one_layer_file 7 one_layer_package /\
  packed_at one_layer_file 5 = 0x00800000 /\
  Forall (fun l => sprite_index l = 1 /\ x_offset l = -512 /\
                   y_offset l = -512 /\ transform l = 0)
         (all_layers one_layer_package).
Proof.
  split; [exact parse_one_layer_file|].
  destruct (packed_bit_fields _ _ _ _ _ parse_one_layer_file) as [Hw Hs].
  split; [exact Hw|]. split; [exact one_layer_word|].
  destruct Hw as (_ & (_ & (_ & Hl & _) & _) & _).
  constructor; [|constructor].
  exact (Hs 5%nat _ Hl one_layer_word).
Defined.

(** C4. For every layer the file declares, decoded at its own offset,
    re-packing its four sub-fields as (sprite_index << 23)
    | ((x_offset + 512) << 13) | ((y_offset + 512) << 3) | transform gives
    back the 32-bit word read from bytes 8-11 of its twelve. *)
Theorem repack_lossless (data : PyBytes.bytes) (pid : Z) (s0 s' : state)
    (r : Package) :
  parse_dat data pid s0 = Return r s' ->
  package_with layer_repacks data pid r.
Proof.
  intros H.
  apply (parse_dat_tied data layer_repacks (fun _ => True)) with (s0 := s0) (s' := s');
    [|exact H|apply Forall_True].
  intros o l Hl _. now apply layer_at_repacks.
Qed.

Lemma repack_lossless_witness :
  parse_dat one_layer_file 7 (init []) = Return one_layer_package one_layer_final /\
  package_with layer_repacks one_layer_file 7 one_layer_package /\
  Forall (fun l => repack (sprite_index l) (x_offset l) (y_offset l)
                     (transform l) = 0x00800000)
         (all_layers one_layer_package).
Proof.
  split; [exact parse_one_layer_file|].
  pose proof (repack_lossless _ _ _ _ _ parse_one_layer_file) as Hw.
  split; [exact Hw|].
  destruct Hw as (_ & (_ & (_ & (_ & _ & Hl) & _) & _) & _).
  constructor; [|constructor].
  exact (eq_trans Hl one_layer_word).
Defined.

(** C6. A decode that returns has exactly as many animations as the two
    count bytes of the header declare, and reports that number as
    num_animations; each animation has as many frames as its num_frames
    byte declares, each frame as many layers as its num_layers byte
    declares, every count byte being the one at the animation's or the
    frame's own place in the file. *)
Theorem declared_counts (data : PyBytes.bytes) (pid : Z) (s0 s' : state)
    (r : Package) :
  parse_dat data pid s0 = Return r s' ->
  PyStruct.unpack PyStruct.BE_H
    (PyBytes.slice data (header_size pid - 2) (header_size pid))
    = inr (Z.of_nat (List.length (animations r))) /\
  Z.of_nat (List.length (animations r)) = num_animations r /\
  seq_at anim_size (num_frames_declared data) (header_size pid) (animations r).
Proof.
  intros H.
  pose proof (parse_dat_tied data (fun _ _ _ => True) (fun _ => True)
                (fun _ _ _ _ => I) pid s0 s' r H (Forall_True _)) as [Hc _].
  apply parse_dat_post in H as (_ & _ & Hna & Hlen & Hseq & _).
  split; [exact Hc|]. split.
  - apply BytesFacts.unpack_BE_H_range in Hna. rewrite Hlen. lia.
  - eapply seq_at_impl; [|exact Hseq].
    intros o a (Hn & Hfs & _). split; [exact Hn|].
    eapply seq_at_impl; [|exact Hfs].
    intros o' f (_ & Hl & _). exact Hl.
Qed.

Lemma declared_counts_witness :
  parse_dat one_layer_file 7 (init []) = Return one_layer_package one_layer_final /\
  PyStruct.unpack PyStruct.BE_H (PyBytes.slice one_layer_file 0 2) = inr 1 /\
  Z.of_nat (List.length (animations one_layer_package)) =
    num_animations one_layer_package /\
  seq_at anim_size (num_frames_declared one_layer_file) (header_size 7)
         (animations one_layer_package).
Proof.
  split; [exact parse_one_layer_file|].
  exact (declared_counts _ _ _ _ _ parse_one_layer_file).
Defined.

(** X10. The ['packed_raw'] of every layer the file declares is [hex()]
    of the 32-bit word read big-endian from the last four of that layer's
    own twelve bytes. *)
Theorem packed_raw_is_hex (data : PyBytes.bytes) (pid : Z) (s0 s' : state)
    (r : Package) :
  parse_dat data pid s0 = Return r s' ->
  package_with layer_raw data pid r.
Proof.
  intros H.
  apply (parse_dat_tied data layer_raw
           (fun l => packed_raw l = py_hex (packed_of l)))
    with (s0 := s0) (s' := s'); [|exact H|exact (parse_dat_raw _ _ _ _ _ H)].
  intros o l. apply layer_at_raw.
Qed.

Lemma packed_raw_is_hex_witness :
  parse_dat one_layer_file 7 (init []) = Return one_layer_package one_layer_final /\
  package_with layer_raw one_layer_file 7 one_layer_package /\
  Forall (fun l => packed_raw l = "0x800000"%string)
         (all_layers one_layer_package).
Proof.
  split; [exact parse_one_layer_file|].
  pose proof (packed_raw_is_hex _ _ _ _ _ parse_one_layer_file) as Hw.
  split; [exact Hw|].
  destruct Hw as (_ & (_ & (_ & (_ & Hl) & _) & _) & _).
  constructor; [|constructor]. exact Hl.
Defined.

(** ** The header *)

(** [parse_dat] is its header followed by its body. *)
Lemma parse_dat_split (data : PyBytes.bytes) (pid : Z) (s0 : state) :
  parse_dat data pid s0 =
  (set_offset 0 ;;;
   hdr <- parse_header data pid ;;
   parse_body data pid (fst hdr) (snd hdr)) s0.
Proof. reflexivity. Qed.

Lemma read_header_inr (data : PyBytes.bytes) (pid : Z) (np : option Z)
    (na : Z) (cur : nat) :
  read_header data pid = inr (np, na, cur) ->
  cur = header_size pid /\ (np <> None <-> pid = 0).
Proof.
  unfold read_header, header_size.
  destruct (Z.eqb_spec pid 0) as [E|E]; intros H.
  - destruct data as [|b [|hi [|lo rest]]]; try discriminate H.
    injection H as <- _ <-. split; [reflexivity|]. split; [auto|discriminate].
  - destruct data as [|hi [|lo rest]]; try discriminate H.
    injection H as <- _ <-. split; [reflexivity|]. split; [congruence|contradiction].
Qed.

Lemma parse_body_Return (data : PyBytes.bytes) (pid : Z) (np : option Z)
    (na : Z) (s s' : state) (r : Package) :
  parse_body data pid np na s = Return r s' ->
  package_id r = pid /\ num_packages r = np /\ num_animations r = na.
Proof.
  intros H. unfold parse_body in H. run_steps H. now repeat split.
Qed.

(** The header reads of the decode itself, on every buffer. *)
Lemma parse_dat_header (data : PyBytes.bytes) (pid : Z) (s0 : state) :
  parse_dat data pid s0 =
  match read_header data pid with
  | inr (np, na, cur) =>
      parse_body data pid np na
        (mkState cur (max_sprite_idx s0)
                 (stdout s0 ++ packages_line np ++ animations_line na))
  | inl (e, np) => Raise e (stdout s0 ++ packages_line np)
  end.
Proof.
  rewrite parse_dat_split. unfold read_header, parse_header, bind.
  cbn [set_offset].
  destruct (pid =? 0).
  - destruct data as [|b [|hi [|lo rest]]].
    + cbn. now rewrite app_nil_r.
    + reflexivity.
    + reflexivity.
    + cbn. rewrite <- app_assoc. reflexivity.
  - destruct data as [|hi [|lo rest]].
    + cbn. now rewrite app_nil_r.
    + cbn. now rewrite app_nil_r.
    + reflexivity.
Qed.

(** C5. On every buffer the decode starts with the header reads and goes
    on from where they end: with package_id 0, and only then, one unsigned
    byte num_packages is read at offset 0 and the cursor moved by 1; then
    one unsigned 16-bit big-endian num_animations is read and the cursor
    moved by 2; the rest of the decode starts at that cursor with these two
    values, and a package that is returned carries them, with
    ['num_packages'] exactly when package_id is 0.  On a file too short for
    these reads the decode raises at the read that fails. *)
Theorem header_read (data : PyBytes.bytes) (pid : Z) (s0 : state) :
  parse_dat data pid s0 =
    match read_header data pid with
    | inr (np, na, cur) =>
        parse_body data pid np na
          (mkState cur (max_sprite_idx s0)
                   (stdout s0 ++ packages_line np ++ animations_line na))
    | inl (e, np) => Raise e (stdout s0 ++ packages_line np)
    end /\
  (forall r s',
     parse_dat data pid s0 = Return r s' ->
     read_header data pid
       = inr (num_packages r, num_animations r, header_size pid) /\
     (num_packages r <> None <-> pid = 0) /\
     (header_size pid <= offset s')%nat).
Proof.
  split; [apply parse_dat_header|].
  intros r s' H.
  pose proof (parse_dat_post data pid s0 s' r H) as P.
  destruct P as (_ & _ & _ & _ & _ & _ & Ho & _).
  rewrite parse_dat_header in H.
  destruct (read_header data pid) as [[e np]|[[np na] cur]] eqn:E;
    [discriminate H|].
  apply parse_body_Return in H as (_ & <- & <-).
  destruct (read_header_inr _ _ _ _ _ E) as [-> Hnp].
  split; [reflexivity|]. split; [exact Hnp|]. lia.
Qed.

Lemma header_read_witness :
  read_header one_layer_file 7 = inr (None, 1, 2%nat) /\
  parse_dat one_layer_file 7 (init []) =
    parse_body one_layer_file 7 None 1
      (mkState 2 0 ["Num animations: 1"]%string) /\
  parse_dat one_layer_file 7 (init []) = Return one_layer_package one_layer_final /\
  num_packages one_layer_package = None /\
  num_animations one_layer_package = 1 /\
  read_header [x01; x00; x00] 0 = inr (Some 1, 0, 3%nat) /\
  read_header [x05; x00] 0 = inl (StructError 2, Some 5).
Proof.
  split; [reflexivity|].
  split; [exact (proj1 (header_read one_layer_file 7 (init [])))|].
  split; [exact parse_one_layer_file|].
  pose proof (proj2 (header_read one_layer_file 7 (init []))
                _ _ parse_one_layer_file) as (H & _).
  split; [reflexivity|]. split; [reflexivity|]. split; reflexivity.
Defined.

(** ** Files cut short *)

Lemma reads_size_app (r1 r2 : list read) :
  reads_size (r1 ++ r2) = (reads_size r1 + reads_size r2)%nat.
Proof. unfold reads_size. now rewrite map_app, list_sum_app. Qed.

Lemma reads_size_cons (rd : read) (rds : list read) :
  reads_size (rd :: rds) = (read_size rd + reads_size rds)%nat.
Proof. reflexivity. Qed.

Lemma read_at_None (rds : list read) (k : nat) :
  read_at rds k = None <-> (reads_size rds <= k)%nat.
Proof.
  revert k. induction rds as [|rd rds IH]; intros k.
  - split; [intros _; cbn; lia | reflexivity].
  - cbn [read_at]. rewrite reads_size_cons.
    destruct (Nat.ltb_spec k (read_size rd)).
    + split; [discriminate | lia].
    + rewrite IH. lia.
Qed.

Lemma read_at_Some (rds : list read) (k : nat) :
  (k < reads_size rds)%nat -> exists rd, read_at rds k = Some rd.
Proof.
  intros H. destruct (read_at rds k) as [rd|] eqn:E; [now exists rd|].
  apply read_at_None in E. lia.
Qed.

Lemma read_at_app (r1 r2 : list read) (k : nat) :
  read_at (r1 ++ r2) k =
  match read_at r1 k with
  | Some rd => Some rd
  | None => read_at r2 (k - reads_size r1)
  end.
Proof.
  revert k. induction r1 as [|rd r1 IH]; intros k.
  - cbn. now rewrite Nat.sub_0_r.
  - cbn [app read_at]. rewrite reads_size_cons.
    destruct (Nat.ltb_spec k (read_size rd)); [reflexivity|].
    rewrite IH. now rewrite Nat.sub_add_distr.
Qed.

Section Cut.
Import PyBytes PyStruct BytesFacts.
Variable d : bytes.
Variable k : nat.

Lemma index_cut_in (o : nat) : (o < k)%nat -> index (firstn k d) o = index d o.
Proof. intros H. unfold index. now rewrite nth_error_firstn, (proj2 (Nat.ltb_lt _ _) H). Qed.

Lemma index_cut_out (o : nat) :
  (k <= o)%nat -> index (firstn k d) o = inl IndexError.
Proof.
  intros H. unfold index.
  rewrite nth_error_firstn. destruct (Nat.ltb_spec o k); [lia|reflexivity].
Qed.

Lemma slice_cut_in (o n : nat) :
  (o + n <= k)%nat -> slice (firstn k d) o (o + n) = slice d o (o + n).
Proof.
  intros H. unfold slice. rewrite skipn_firstn_comm, firstn_firstn.
  f_equal. lia.
Qed.

Lemma unpack_cut_out (f : format) (o : nat) :
  (k < o + calcsize f)%nat ->
  unpack f (slice (firstn k d) o (o + calcsize f))
    = inl (StructError (calcsize f)).
Proof.
  intros H. unfold unpack.
  destruct (Nat.eqb_spec (List.length (slice (firstn k d) o (o + calcsize f)))
              (calcsize f)) as [E|E]; [|reflexivity].
  exfalso. rewrite slice_length, length_firstn in E.
  destruct f; cbn [calcsize] in *; lia.
Qed.

(** One [struct.unpack] read and the move of the cursor after it. *)
Lemma cut_unpack_step {A} (f : format) (n : nat) (K K' : Z -> M A)
    (rest : list read) (s : state) (a : A) (s' : state) :
  n = calcsize f ->
  (v <- unpack_at_offset d f n ;; advance n ;;; K v) s = Return a s' ->
  (offset s <= k)%nat ->
  (forall v s1,
     offset s1 = (offset s + n)%nat -> stdout s1 = stdout s ->
     K v s1 = Return a s' -> (offset s1 <= k)%nat ->
     K' v s1 = cut_result rest (k - offset s1) (stdout s1) (Return a s')) ->
  (v <- unpack_at_offset (firstn k d) f n ;; advance n ;;; K' v) s
    = cut_result (ReadStruct f :: rest) (k - offset s) (stdout s) (Return a s').
Proof.
  intros -> H Hk HK.
  apply bind_Return in H as (v & s1 & H1 & H).
  apply unpack_at_offset_Return in H1 as [-> Hu].
  apply bind_Return in H as (u & s2 & H2 & H).
  apply advance_Return in H2. subst s2.
  unfold cut_result. cbn [read_at read_size].
  destruct (Nat.ltb_spec (k - offset s) (calcsize f)) as [C|C].
  - assert (E : unpack_at_offset (firstn k d) f (calcsize f) s
                = Raise (StructError (calcsize f)) (stdout s)).
    { unfold unpack_at_offset, bind, get_offset, lift.
      now rewrite unpack_cut_out by lia. }
    unfold bind. now rewrite E.
  - assert (E : unpack_at_offset (firstn k d) f (calcsize f) s = Return v s).
    { unfold unpack_at_offset, bind, get_offset, lift.
      rewrite slice_cut_in by lia. now rewrite Hu. }
    unfold bind. rewrite E. unfold advance.
    rewrite (HK v (mkState (offset s + calcsize f) (max_sprite_idx s)
                     (stdout s)) eq_refl eq_refl H) by (cbn [offset]; lia).
    unfold cut_result. cbn [offset stdout].
    now replace (k - (offset s + calcsize f))%nat
      with (k - offset s - calcsize f)%nat by lia.
Qed.

(** One [data[offset]] read and the move of the cursor after it. *)
Lemma cut_byte_step {A} (K K' : Z -> M A) (rest : list read) (s : state)
    (a : A) (s' : state) :
  (v <- byte_at_offset d ;; advance 1 ;;; K v) s = Return a s' ->
  (offset s <= k)%nat ->
  (forall v s1,
     offset s1 = (offset s + 1)%nat -> stdout s1 = stdout s ->
     K v s1 = Return a s' -> (offset s1 <= k)%nat ->
     K' v s1 = cut_result rest (k - offset s1) (stdout s1) (Return a s')) ->
  (v <- byte_at_offset (firstn k d) ;; advance 1 ;;; K' v) s
    = cut_result (ReadByte :: rest) (k - offset s) (stdout s) (Return a s').
Proof.
  intros H Hk HK.
  apply bind_Return in H as (v & s1 & H1 & H).
  apply byte_at_offset_Return in H1 as [-> Hu].
  apply bind_Return in H as (u & s2 & H2 & H).
  apply advance_Return in H2. subst s2.
  unfold cut_result. cbn [read_at read_size].
  destruct (Nat.ltb_spec (k - offset s) 1) as [C|C].
  - assert (E : byte_at_offset (firstn k d) s = Raise IndexError (stdout s)).
    { unfold byte_at_offset, bind, get_offset, lift.
      now rewrite index_cut_out by lia. }
    unfold bind. now rewrite E.
  - assert (E : byte_at_offset (firstn k d) s = Return v s).
    { unfold byte_at_offset, bind, get_offset, lift.
      rewrite index_cut_in by lia. now rewrite Hu. }
    unfold bind. rewrite E. unfold advance.
    rewrite (HK v (mkState (offset s + 1) (max_sprite_idx s) (stdout s))
               eq_refl eq_refl H) by (cbn [offset]; lia).
    unfold cut_result. cbn [offset stdout].
    now replace (k - (offset s + 1))%nat with (k - offset s - 1)%nat by lia.
Qed.

End Cut.

Section CutLoops.
Import PyBytes PyStruct BytesFacts.
Variable d : bytes.
Variable k : nat.

Section CutLoop.
Context {A : Type} (body : bytes -> nat -> M A) (reads : A -> list read).

Hypothesis body_moves : forall i s a s',
  body d i s = Return a s' ->
  offset s' = (offset s + reads_size (reads a))%nat /\ stdout s' = stdout s.

Hypothesis body_cut : forall i s a s',
  body d i s = Return a s' -> (offset s <= k)%nat ->
  body (firstn k d) i s
    = cut_result (reads a) (k - offset s) (stdout s) (Return a s').

(** A loop on the cut file goes as far as the pass whose read covers the
    first missing byte. *)
Lemma cut_for_range (n i : nat) (s s' : state) (xs : list A) :
  for_range n i (body d) s = Return xs s' -> (offset s <= k)%nat ->
  for_range n i (body (firstn k d)) s
    = cut_result (flat_map reads xs) (k - offset s) (stdout s) (Return xs s').
Proof.
  revert i s s' xs. induction n as [|n IH]; intros i s s' xs H Hk.
  - cbn [for_range] in H |- *. apply ret_Return in H as [-> ->]. reflexivity.
  - cbn [for_range] in H |- *.
    apply bind_Return in H as (a & s1 & Ha & H).
    apply bind_Return in H as (rest & s2 & Hr & H).
    apply ret_Return in H as [-> ->].
    destruct (body_moves _ _ _ _ Ha) as [Ho Hout].
    pose proof (body_cut _ _ _ _ Ha Hk) as Ca.
    unfold bind at 1. rewrite Ca. unfold cut_result.
    cbn [flat_map]. rewrite read_at_app.
    destruct (read_at (reads a) (k - offset s)) as [rd|] eqn:E; [reflexivity|].
    apply read_at_None in E.
    unfold bind at 1. rewrite (IH _ _ _ _ Hr) by lia.
    unfold cut_result. rewrite Ho, Hout.
    replace (k - (offset s + reads_size (reads a)))%nat
      with (k - offset s - reads_size (reads a))%nat by lia.
    destruct (read_at (flat_map reads rest) _); reflexivity.
Qed.

(** The same for a loop whose list is wrapped up and returned. *)
Lemma cut_for_range_ret {B} (F : list A -> B) (n i : nat) (s s' : state)
    (b : B) :
  (xs <- for_range n i (body d) ;; ret (F xs)) s = Return b s' ->
  (offset s <= k)%nat ->
  exists xs, b = F xs /\
    (xs <- for_range n i (body (firstn k d)) ;; ret (F xs)) s
      = cut_result (flat_map reads xs) (k - offset s) (stdout s) (Return b s').
Proof.
  intros H Hk. apply bind_Return in H as (xs & s1 & Hl & H).
  apply ret_Return in H as [-> ->]. exists xs. split; [reflexivity|].
  unfold bind. rewrite (cut_for_range _ _ _ _ _ Hl Hk). unfold cut_result.
  destruct (read_at (flat_map reads xs) _); reflexivity.
Qed.

End CutLoop.

Lemma layer_reads_size (l : Layer) : reads_size (layer_reads l) = layer_size l.
Proof. reflexivity. Qed.

Lemma layers_reads_size (ls : list Layer) :
  reads_size (flat_map layer_reads ls) = total layer_size ls.
Proof.
  unfold total. induction ls as [|l ls IH]; [reflexivity|].
  cbn [flat_map map]. rewrite reads_size_app, IH. reflexivity.
Qed.

Lemma frame_reads_size (f : Frame) : reads_size (frame_reads f) = frame_size f.
Proof.
  unfold frame_reads, frame_size. rewrite !reads_size_cons, layers_reads_size.
  reflexivity.
Qed.

Lemma frames_reads_size (fs : list Frame) :
  reads_size (flat_map frame_reads fs) = total frame_size fs.
Proof.
  unfold total. induction fs as [|f fs IH]; [reflexivity|].
  cbn [flat_map map]. rewrite reads_size_app, IH, frame_reads_size.
  reflexivity.
Qed.

Lemma anim_reads_size (a : Animation) : reads_size (anim_reads a) = anim_size a.
Proof.
  unfold anim_reads, anim_size. rewrite reads_size_cons, frames_reads_size.
  reflexivity.
Qed.

Lemma anims_reads_size (anims : list Animation) :
  reads_size (flat_map anim_reads anims) = total anim_size anims.
Proof.
  unfold total. induction anims as [|a anims IH]; [reflexivity|].
  cbn [flat_map map]. rewrite reads_size_app, IH, anim_reads_size.
  reflexivity.
Qed.

Lemma parse_layer_moves (i : nat) (s : state) (l : Layer) (s' : state) :
  parse_layer d i s = Return l s' ->
  offset s' = (offset s + reads_size (layer_reads l))%nat /\
  stdout s' = stdout s.
Proof.
  intros H. apply parse_layer_post in H as [-> _].
  rewrite layer_reads_size. now split.
Qed.

Lemma parse_frame_moves (i : nat) (s : state) (f : Frame) (s' : state) :
  parse_frame d i s = Return f s' ->
  offset s' = (offset s + reads_size (frame_reads f))%nat /\
  stdout s' = stdout s.
Proof.
  intros H. apply parse_frame_post in H as [-> _].
  rewrite frame_reads_size. now split.
Qed.

Lemma parse_animation_moves (i : nat) (s : state) (a : Animation) (s' : state) :
  parse_animation d i s = Return a s' ->
  offset s' = (offset s + reads_size (anim_reads a))%nat /\
  stdout s' = stdout s.
Proof.
  intros H. apply parse_animation_post in H as [-> _].
  rewrite anim_reads_size. now split.
Qed.

Lemma cut_parse_layer (i : nat) (s : state) (l : Layer) (s' : state) :
  parse_layer d i s = Return l s' -> (offset s <= k)%nat ->
  parse_layer (firstn k d) i s
    = cut_result (layer_reads l) (k - offset s) (stdout s) (Return l s').
Proof.
  intros H Hk. unfold parse_layer in H |- *. unfold layer_reads.
  eapply (cut_unpack_step d k BE_H 2); [reflexivity|exact H|exact Hk|].
  clear H. intros rx s1 _ _ H Hk1.
  eapply (cut_unpack_step d k BE_H 2); [reflexivity|exact H|exact Hk1|].
  clear H. intros ry s2 _ _ H Hk2.
  eapply (cut_unpack_step d k BE_H 2); [reflexivity|exact H|exact Hk2|].
  clear H. intros rw s3 _ _ H Hk3.
  eapply (cut_unpack_step d k BE_H 2); [reflexivity|exact H|exact Hk3|].
  clear H. intros rh s4 _ _ H Hk4.
  eapply (cut_unpack_step d k BE_I 4); [reflexivity|exact H|exact Hk4|].
  clear H. intros packed s5 _ _ H Hk5.
  exact H.
Qed.

Lemma cut_parse_frame (i : nat) (s : state) (f : Frame) (s' : state) :
  parse_frame d i s = Return f s' -> (offset s <= k)%nat ->
  parse_frame (firstn k d) i s
    = cut_result (frame_reads f) (k - offset s) (stdout s) (Return f s').
Proof.
  intros H Hk. unfold parse_frame in H |- *. unfold frame_reads.
  eapply (cut_unpack_step d k SByte 1); [reflexivity|exact H|exact Hk|].
  clear H. intros delay s1 _ _ H Hk1.
  eapply (cut_byte_step d k); [exact H|exact Hk1|].
  clear H. intros num_layers s2 _ _ H Hk2.
  destruct (cut_for_range_ret (fun d' => parse_layer d') layer_reads
              parse_layer_moves cut_parse_layer
              (fun ls => mkFrame i ls delay) _ _ _ _ _ H Hk2)
    as (ls & -> & E).
  exact E.
Qed.

Lemma cut_parse_animation (i : nat) (s : state) (a : Animation) (s' : state) :
  parse_animation d i s = Return a s' -> (offset s <= k)%nat ->
  parse_animation (firstn k d) i s
    = cut_result (anim_reads a) (k - offset s) (stdout s) (Return a s').
Proof.
  intros H Hk. unfold parse_animation in H |- *. unfold anim_reads.
  eapply (cut_byte_step d k); [exact H|exact Hk|].
  clear H. intros num_frames s1 _ _ H Hk1.
  destruct (cut_for_range_ret (fun d' => parse_frame d') frame_reads
              parse_frame_moves cut_parse_frame
              (fun fs => mkAnimation i fs) _ _ _ _ _ H Hk1)
    as (fs & -> & E).
  exact E.
Qed.

End CutLoops.

Lemma package_reads_size (pid : Z) (r : Package) :
  reads_size (package_reads pid r)
  = (header_size pid + total anim_size (animations r))%nat.
Proof.
  unfold package_reads, header_size.
  rewrite reads_size_app, reads_size_cons, anims_reads_size.
  destruct (pid =? 0); reflexivity.
Qed.

(** Past the header, the read that covers byte [k] is one of an
    animation. *)
Lemma package_read_at_body (pid : Z) (r : Package) (k : nat) :
  (header_size pid <= k)%nat ->
  read_at (package_reads pid r) k
  = read_at (flat_map anim_reads (animations r)) (k - header_size pid).
Proof.
  intros H. unfold package_reads, header_size in *.
  destruct (pid =? 0); cbn [app read_at read_size PyStruct.calcsize].
  - destruct (Nat.ltb_spec k 1); [lia|].
    destruct (Nat.ltb_spec (k - 1) 2); [lia|]. f_equal. lia.
  - destruct (Nat.ltb_spec k 2); [lia|]. reflexivity.
Qed.

(** The header of a file cut inside its header. *)
Lemma read_header_cut_in (data : PyBytes.bytes) (pid : Z) (r : Package)
    (np : option Z) (na : Z) (cur k : nat) :
  read_header data pid = inr (np, na, cur) -> (k < header_size pid)%nat ->
  exists rd np',
    read_at (package_reads pid r) k = Some rd /\
    read_header (firstn k data) pid = inl (read_error rd, np').
Proof.
  unfold read_header, package_reads, header_size.
  destruct (pid =? 0); intros H Hk.
  - destruct data as [|b [|hi [|lo rest]]]; try discriminate H.
    destruct k as [|[|[|k]]]; [| | |lia]; cbn; eauto.
  - destruct data as [|hi [|lo rest]]; try discriminate H.
    destruct k as [|[|k]]; [| |lia]; cbn; eauto.
Qed.

(** The header of a file cut after its header. *)
Lemma read_header_cut_out (data : PyBytes.bytes) (pid : Z)
    (np : option Z) (na : Z) (cur k : nat) :
  read_header data pid = inr (np, na, cur) -> (header_size pid <= k)%nat ->
  read_header (firstn k data) pid = inr (np, na, cur).
Proof.
  unfold read_header, header_size.
  destruct (pid =? 0); intros H Hk.
  - destruct data as [|b [|hi [|lo rest]]]; try discriminate H.
    destruct k as [|[|[|k]]]; try lia. exact H.
  - destruct data as [|hi [|lo rest]]; try discriminate H.
    destruct k as [|[|k]]; try lia. exact H.
Qed.

(** The body of the decode on a file cut inside its animations. *)
Lemma parse_body_cut (data : PyBytes.bytes) (pid : Z) (np : option Z)
    (na : Z) (s s' : state) (r : Package) (k : nat) :
  parse_body data pid np na s = Return r s' ->
  (offset s <= k)%nat ->
  (k < offset s + total anim_size (animations r))%nat ->
  exists rd,
    read_at (flat_map anim_reads (animations r)) (k - offset s) = Some rd /\
    parse_body (firstn k data) pid np na s = Raise (read_error rd) (stdout s).
Proof.
  intros H Hk Hin. unfold parse_body in H |- *.
  apply bind_Return in H as (u & s1 & H1 & H).
  apply set_max_Return in H1. subst s1.
  apply bind_Return in H as (anims & s2 & Hl & H).
  assert (Er : animations r = anims).
  { run_steps H. reflexivity. }
  rewrite Er in *.
  destruct (read_at_Some (flat_map anim_reads anims) (k - offset s))
    as (rd & E); [rewrite anims_reads_size; lia|].
  exists rd. split; [exact E|].
  pose proof (cut_for_range data k (fun d' => parse_animation d') anim_reads
                (parse_animation_moves data) (cut_parse_animation data k)
                _ _ _ _ _ Hl) as C.
  cbn [offset stdout] in C. specialize (C Hk).
  unfold cut_result in C. rewrite E in C.
  unfold bind at 1. unfold set_max at 1. unfold bind at 1. now rewrite C.
Qed.

(** A decode that returns, run again on the file cut at byte [k] before the
    end of what it read, raises the error of the read that covers byte
    [k]. *)
Lemma parse_dat_cut (data : PyBytes.bytes) (pid : Z) (s0 s' : state)
    (r : Package) :
  parse_dat data pid s0 = Return r s' ->
  reads_size (package_reads pid r) = offset s' /\
  (offset s' <= List.length data)%nat /\
  forall k, (k < offset s')%nat ->
    exists rd out,
      read_at (package_reads pid r) k = Some rd /\
      parse_dat (firstn k data) pid s0 = Raise (read_error rd) out.
Proof.
  intros H.
  pose proof (parse_dat_post data pid s0 s' r H) as P.
  destruct P as (_ & _ & _ & _ & _ & _ & Ho & Hend & _).
  split; [now rewrite package_reads_size|]. split; [exact Hend|].
  intros k Hk. rewrite parse_dat_header in H |- *.
  destruct (read_header data pid) as [[e np]|[[np na] cur]] eqn:E;
    [discriminate H|].
  destruct (read_header_inr _ _ _ _ _ E) as [-> _].
  destruct (Nat.lt_ge_cases k (header_size pid)) as [C|C].
  - destruct (read_header_cut_in data pid r _ _ _ k E C)
      as (rd & np' & Hrd & ->).
    exists rd. eexists. split; [exact Hrd|reflexivity].
  - rewrite (read_header_cut_out data pid _ _ _ k E C).
    destruct (parse_body_cut _ _ _ _ _ _ _ k H) as (rd & Hrd & Hraise).
    + exact C.
    + cbn [offset]. lia.
    + cbn [offset] in Hrd. exists rd. eexists.
      split; [|exact Hraise].
      now rewrite package_read_at_body.
Qed.

(** ** Every file is the start of one that decodes *)

Section Complete.
Import PyBytes PyStruct BytesFacts.

Lemma completable_returns {A} (m : bytes -> M A) :
  (forall d, returns (m d)) -> completable m.
Proof.
  intros H d s. exists []. rewrite app_nil_r. apply H.
Qed.

Lemma completable_bind {A B} (m : bytes -> M A) (f : bytes -> A -> M B) :
  stable m -> completable m -> (forall a, completable (fun d => f d a)) ->
  completable (fun d => bind (m d) (f d)).
Proof.
  intros Sm Cm Cf d s.
  destruct (Cm d s) as (e1 & a & s1 & H1).
  destruct (Cf a (d ++ e1) s1) as (e2 & b & s2 & H2).
  exists (e1 ++ e2), b, s2. rewrite app_assoc. unfold bind.
  now rewrite (Sm _ e2 _ _ _ H1).
Qed.

Lemma completable_bind_returns {A B} (m : bytes -> M A)
    (f : bytes -> A -> M B) :
  completable m -> (forall d a, returns (f d a)) ->
  completable (fun d => bind (m d) (f d)).
Proof.
  intros Cm Rf d s.
  destruct (Cm d s) as (e1 & a & s1 & H1).
  destruct (Rf (d ++ e1) a s1) as (b & s2 & H2).
  exists e1, b, s2. unfold bind. now rewrite H1.
Qed.

Lemma completable_byte_at_offset : completable byte_at_offset.
Proof.
  intros d s. exists (repeat x00 (S (offset s))).
  unfold byte_at_offset, bind, get_offset, lift, index.
  destruct (nth_error (d ++ repeat x00 (S (offset s))) (offset s)) as [b|] eqn:E.
  - now exists (u8 b), s.
  - apply nth_error_None in E. rewrite length_app, repeat_length in E. lia.
Qed.

Lemma completable_unpack_at_offset (f : format) :
  completable (fun d => unpack_at_offset d f (calcsize f)).
Proof.
  intros d s. exists (repeat x00 (offset s + calcsize f)).
  unfold unpack_at_offset, bind, get_offset, lift.
  destruct (unpack_full f (slice (d ++ repeat x00 (offset s + calcsize f))
                             (offset s) (offset s + calcsize f)))
    as (v & -> & _).
  - rewrite slice_inside; [lia|lia|].
    rewrite length_app, repeat_length. lia.
  - now exists v, s.
Qed.

Lemma completable_for_range {A} (body : bytes -> nat -> M A) (n i0 : nat) :
  (forall i, stable (fun d => body d i)) ->
  (forall i, completable (fun d => body d i)) ->
  completable (fun d => for_range n i0 (body d)).
Proof.
  intros Sb Cb. revert i0. induction n as [|n IH]; intros i0; cbn [for_range].
  - apply completable_returns. intros d s. now exists [], s.
  - apply completable_bind; [apply Sb|apply Cb|]. intros a.
    apply completable_bind_returns; [apply IH|].
    intros d rest s. now exists (a :: rest), s.
Qed.

Lemma stable_const' {A} (m : M A) : stable (fun _ : bytes => m).
Proof. intros d ext s a s' H. exact H. Qed.

Ltac read_steps :=
  repeat first
    [ apply completable_bind;
        [ first [ apply stable_byte_at_offset
                | apply (stable_unpack_at_offset BE_H)
                | apply (stable_unpack_at_offset BE_I)
                | apply (stable_unpack_at_offset SByte)
                | apply stable_const' ]
        | first [ apply completable_byte_at_offset
                | apply (completable_unpack_at_offset BE_H)
                | apply (completable_unpack_at_offset BE_I)
                | apply (completable_unpack_at_offset SByte)
                | apply completable_returns; intros ? ?s; do 2 eexists;
                  reflexivity ]
        | intros ? ] ].

Lemma completable_parse_layer (i : nat) :
  completable (fun d => parse_layer d i).
Proof.
  unfold parse_layer. read_steps.
  apply completable_returns. intros d s. unfold bind, get_max.
  destruct (_ >? _); do 2 eexists; reflexivity.
Qed.

Lemma completable_parse_frame (i : nat) :
  completable (fun d => parse_frame d i).
Proof.
  unfold parse_frame. read_steps.
  apply completable_bind_returns.
  - apply completable_for_range;
      [exact stable_parse_layer | exact completable_parse_layer].
  - intros d ls s. do 2 eexists. reflexivity.
Qed.

Lemma completable_parse_animation (i : nat) :
  completable (fun d => parse_animation d i).
Proof.
  unfold parse_animation. read_steps.
  apply completable_bind_returns.
  - apply completable_for_range;
      [exact stable_parse_frame | exact completable_parse_frame].
  - intros d fs s. do 2 eexists. reflexivity.
Qed.

Lemma completable_parse_header (pid : Z) :
  completable (fun d => parse_header d pid).
Proof.
  unfold parse_header. destruct (pid =? 0).
  - apply completable_bind.
    + apply stable_bind; [apply stable_byte_at_offset|]. intros v.
      apply stable_const'.
    + read_steps. apply completable_returns. intros d s.
      do 2 eexists. reflexivity.
    + intros np. read_steps. apply completable_returns. intros d s.
      do 2 eexists. reflexivity.
  - read_steps. apply completable_returns. intros d s.
    do 2 eexists. reflexivity.
Qed.

(** Whatever the file, some bytes added at its end make it decode. *)
Lemma completable_parse_dat (pid : Z) : completable (fun d => parse_dat d pid).
Proof.
  unfold parse_dat.
  apply completable_bind;
    [apply stable_const'
    |apply completable_returns; intros d s; do 2 eexists; reflexivity|].
  intros u.
  apply completable_bind;
    [apply stable_parse_header|apply completable_parse_header|].
  intros hdr.
  apply completable_bind;
    [apply stable_const'
    |apply completable_returns; intros d s; do 2 eexists; reflexivity|].
  intros u'.
  apply completable_bind_returns.
  - apply completable_for_range;
      [exact stable_parse_animation | exact completable_parse_animation].
  - intros d anims s. do 2 eexists. reflexivity.
Qed.

End Complete.

(** A decode that returns also returns, with the same package, on the file
    cut anywhere after the last byte it read. *)
Lemma parse_dat_cut_past (data : PyBytes.bytes) (pid : Z) (s0 s' : state)
    (r : Package) (k : nat) :
  parse_dat data pid s0 = Return r s' -> (offset s' <= k)%nat ->
  exists s'', parse_dat (firstn k data) pid s0 = Return r s''.
Proof.
  intros H Hk.
  pose proof (parse_dat_post data pid s0 s' r H) as P.
  destruct P as (_ & _ & _ & _ & _ & _ & Ho & _).
  rewrite parse_dat_header in H |- *.
  destruct (read_header data pid) as [[e np]|[[np na] cur]] eqn:E;
    [discriminate H|].
  destruct (read_header_inr _ _ _ _ _ E) as [-> _].
  rewrite (read_header_cut_out data pid _ _ _ k E) by lia.
  unfold parse_body in H |- *.
  apply bind_Return in H as (u & s1 & H1 & H).
  apply set_max_Return in H1. subst s1.
  apply bind_Return in H as (anims & s2 & Hl & H).
  pose proof (cut_for_range data k (fun d' => parse_animation d') anim_reads
                (parse_animation_moves data) (cut_parse_animation data k)
                _ _ _ _ _ Hl) as C.
  cbn [offset stdout] in C. specialize (C ltac:(lia)).
  run_steps H. cbn [animations] in Ho.
  unfold cut_result in C.
  rewrite (proj2 (read_at_None _ _)) in C
    by (rewrite anims_reads_size; lia).
  unfold bind at 1. unfold set_max at 1. unfold bind at 1.
  cbn [offset stdout]. rewrite C.
  eexists. reflexivity.
Qed.

(** C2, as the code has it.  There is no length check before a read and
    no error of the decoder's own: a file that ends too early is met by the
    Python exception of the read that needs the first missing byte, which
    carries no offset, and the exception ends the call with no package.
    The reads of a decode, in order, are: one byte for num_packages when
    package_id is 0, an unpack for num_animations, one byte for each
    num_frames, an unpack for each delay, one byte for each num_layers,
    four unpacks for each rect and one for each packed word.  For a decode
    that returns they cover exactly the bytes it read, all inside the file,
    and on the same file cut at any byte [k] before the end of what was
    read the decode raises [IndexError] when the read that covers byte [k]
    is a one-byte read and [struct.error] when it is an unpack.  Every file
    on which the decode raises is such a cut file: it is the start of a
    file that decodes, and the exception is the one of the read that covers
    the first byte it lacks. *)
Theorem overrun_raises (data : PyBytes.bytes) (pid : Z) (s0 : state) :
  (forall r s',
     parse_dat data pid s0 = Return r s' ->
     reads_size (package_reads pid r) = offset s' /\
     (offset s' <= List.length data)%nat /\
     forall k, (k < offset s')%nat ->
       exists rd out,
         read_at (package_reads pid r) k = Some rd /\
         parse_dat (firstn k data) pid s0 = Raise (read_error rd) out) /\
  (forall e out,
     parse_dat data pid s0 = Raise e out ->
     exists ext r s' rd,
       parse_dat (data ++ ext) pid s0 = Return r s' /\
       (List.length data < offset s')%nat /\
       read_at (package_reads pid r) (List.length data) = Some rd /\
       e = read_error rd).
Proof.
  split; [intros r s'; apply parse_dat_cut|].
  intros e out H.
  destruct (completable_parse_dat pid data s0) as (ext & r & s' & Hfull).
  assert (Ecut : firstn (List.length data) (data ++ ext) = data).
  { rewrite firstn_app, Nat.sub_diag, firstn_all. cbn [firstn].
    apply app_nil_r. }
  destruct (Nat.lt_ge_cases (List.length data) (offset s')) as [C|C].
  - destruct (parse_dat_cut _ _ _ _ _ Hfull) as (_ & _ & Hcut).
    destruct (Hcut _ C) as (rd & out' & Hrd & Hr).
    rewrite Ecut, H in Hr. injection Hr as -> _.
    now exists ext, r, s', rd.
  - exfalso.
    destruct (parse_dat_cut_past _ _ _ _ _ _ Hfull C) as (s'' & Hr).
    rewrite Ecut, H in Hr. discriminate Hr.
Qed.

Lemma overrun_raises_witness :
  parse_dat one_layer_file 7 (init []) = Return one_layer_package one_layer_final /\
  reads_size (package_reads 7 one_layer_package) = 17%nat /\
  read_at (package_reads 7 one_layer_package) 3 = Some (ReadStruct PyStruct.SByte) /\
  (exists out, parse_dat (firstn 3 one_layer_file) 7 (init []) =
               Raise (StructError 1) out) /\
  read_at (package_reads 7 one_layer_package) 4 = Some ReadByte /\
  (exists out, parse_dat (firstn 4 one_layer_file) 7 (init []) =
               Raise IndexError out) /\
  read_at (package_reads 7 one_layer_package) 16 = Some (ReadStruct PyStruct.BE_I) /\
  (exists out, parse_dat (firstn 16 one_layer_file) 7 (init []) =
               Raise (StructError 4) out) /\
  parse_dat [x00; x01; x02] 7 (init []) = Raise (StructError 1) ["Num animations: 1"]%string /\
  (exists ext r s' rd,
     parse_dat ([x00; x01; x02] ++ ext) 7 (init []) = Return r s' /\
     (3 < offset s')%nat /\
     read_at (package_reads 7 r) 3 = Some rd /\
     StructError 1 = read_error rd).
Proof.
  split; [exact parse_one_layer_file|].
  destruct (proj1 (overrun_raises one_layer_file 7 (init []))
              _ _ parse_one_layer_file) as (Hs & _ & Hcut).
  split; [exact Hs|].
  assert (G : forall k rd, (k < 17)%nat ->
            read_at (package_reads 7 one_layer_package) k = Some rd ->
            exists out, parse_dat (firstn k one_layer_file) 7 (init []) =
                        Raise (read_error rd) out).
  { intros k rd Hk Hrd. destruct (Hcut k Hk) as (rd' & out & Hrd' & Hr).
    exists out. congruence. }
  split; [reflexivity|].
  split; [apply (G 3%nat (ReadStruct PyStruct.SByte)); [lia|reflexivity]|].
  split; [reflexivity|].
  split; [apply (G 4%nat ReadByte); [lia|reflexivity]|].
  split; [reflexivity|].
  split; [apply (G 16%nat (ReadStruct PyStruct.BE_I)); [lia|reflexivity]|].
  assert (Hr : parse_dat [x00; x01; x02] 7 (init []) =
               Raise (StructError 1) ["Num animations: 1"]%string)
    by reflexivity.
  split; [exact Hr|].
  exact (proj2 (overrun_raises [x00; x01; x02] 7 (init [])) _ _ Hr).
Defined.

(** ** The summary that [main] prints *)

Lemma line_feeds_app (a b : string) :
  line_feeds (a ++ b) = (line_feeds a + line_feeds b)%nat.
Proof.
  induction a as [|c a IH]; [reflexivity|].
  cbn [append line_feeds]. rewrite IH. lia.
Qed.

Lemma uint_no_feed (d : Decimal.uint) :
  line_feeds (NilEmpty.string_of_uint d) = O.
Proof. induction d; cbn; auto. Qed.

(** [str()] of an integer holds no line feed. *)
Lemma py_str_no_feed (z : Z) : line_feeds (py_str z) = O.
Proof.
  unfold py_str, NilZero.string_of_int, NilZero.string_of_uint.
  destruct (Z.to_int z) as [d|d].
  - destruct d; try reflexivity; apply (uint_no_feed (_ _)).
  - cbn [line_feeds]. destruct d; try reflexivity;
      apply (uint_no_feed (_ _)).
Qed.

Lemma output_lines_app (a b : list string) :
  output_lines (a ++ b) = (output_lines a + output_lines b)%nat.
Proof. unfold output_lines. now rewrite map_app, list_sum_app. Qed.

Section Prints.

Lemma prints_print (line : string) :
  prints_within (print line) 1 (S (line_feeds line)).
Proof.
  intros s. exists [line]. split; [reflexivity|].
  unfold output_lines. cbn. lia.
Qed.

Lemma prints_then (m k : M unit) (a b la lb : nat) :
  prints_within m a la -> prints_within k b lb ->
  prints_within (m ;;; k) (a + b) (la + lb).
Proof.
  intros Hm Hk s. destruct (Hm s) as (l1 & E1 & C1 & L1).
  destruct (Hk (mkState (offset s) (max_sprite_idx s) (stdout s ++ l1)))
    as (l2 & E2 & C2 & L2).
  exists (l1 ++ l2). unfold bind. rewrite E1, E2.
  cbn [offset max_sprite_idx stdout]. rewrite <- app_assoc.
  split; [reflexivity|]. rewrite length_app, output_lines_app. lia.
Qed.

Lemma prints_for_each {A} (body : A -> M unit) (c l : nat) (xs : list A) :
  (forall x, prints_within (body x) c l) ->
  prints_within (for_each xs body) (List.length xs * c) (List.length xs * l).
Proof.
  intros Hb. induction xs as [|x xs IH]; cbn [for_each List.length].
  - intros s. exists []. rewrite app_nil_r. destruct s.
    split; [reflexivity|cbn; lia].
  - cbn [Nat.mul]. apply prints_then; [apply Hb|exact IH].
Qed.

Lemma prints_more (m : M unit) (a b la lb : nat) :
  (a <= b)%nat -> (la <= lb)%nat ->
  prints_within m a la -> prints_within m b lb.
Proof.
  intros Hab Hl Hm s. destruct (Hm s) as (l & E & C & L). exists l.
  split; [exact E|lia].
Qed.

Lemma prints_layer (l : Layer) : prints_within (print_layer l) 1 1.
Proof.
  unfold print_layer. eapply prints_more; [| |apply prints_print]; [lia|].
  rewrite !line_feeds_app, !py_str_no_feed. cbn. lia.
Qed.

Lemma prints_frame (f : Frame) : prints_within (print_frame f) 4 4.
Proof.
  unfold print_frame.
  apply (prints_more _ (1 + 3 * 1) _ (1 + 3 * 1)); [lia|lia|].
  apply prints_then.
  - eapply prints_more; [| |apply prints_print]; [lia|].
    rewrite !line_feeds_app, !py_str_no_feed. cbn. lia.
  - pose proof (firstn_le_length 3 (layers f)).
    eapply prints_more; [| |apply prints_for_each; exact prints_layer]; nia.
Qed.

Lemma prints_animation (a : Animation) :
  prints_within (print_animation a) 9 10.
Proof.
  unfold print_animation.
  apply (prints_more _ (1 + 2 * 4) _ (2 + 2 * 4)); [lia|lia|].
  apply prints_then.
  - eapply prints_more; [| |apply prints_print]; [lia|].
    rewrite !line_feeds_app, !py_str_no_feed. cbn. lia.
  - pose proof (firstn_le_length 2 (frames a)).
    eapply prints_more; [| |apply prints_for_each; exact prints_frame]; nia.
Qed.

End Prints.

(** The summary makes at most 28 calls of [print], 32 lines in all. *)
Lemma prints_summary (r : Package) : prints_within (print_summary r) 28 32.
Proof.
  unfold print_summary.
  apply (prints_more _ (1 + 3 * 9) _ (2 + 3 * 10)); [lia|lia|].
  apply prints_then.
  - eapply prints_more; [| |apply prints_print]; [lia|]. cbn. lia.
  - pose proof (firstn_le_length 3 (animations r)).
    eapply prints_more; [| |apply prints_for_each; exact prints_animation]; nia.
Qed.

(** X11. The summary is bounded whatever the size of the package: it
    always returns, changes nothing but the console, and makes at most 28
    calls of [print] (the heading, three animations, two frames of each,
    three layers of each frame), which take at most 32 lines of output,
    the heading and the line of an animation starting with a line feed. *)
Theorem summary_bounded (r : Package) (s : state) :
  exists out,
    print_summary r s =
    Return tt (mkState (offset s) (max_sprite_idx s) (stdout s ++ out)) /\
    (List.length out <= 28)%nat /\ (output_lines out <= 32)%nat.
Proof. exact (prints_summary r s). Qed.

(** X12. [main] around the decode: when the decode raises, [main] raises
    the same exception after the announcement and the lines the decode had
    printed, and prints no summary; when it returns, [main] goes on with
    the same package and prints the announcement, the lines of the decode
    and a summary of at most 28 calls of [print], 32 lines of output. *)
Theorem main_report_outcome (filepath : string) (data : PyBytes.bytes)
    (pid : Z) (console : list string) :
  let announce :=
    ("Parsing " ++ filepath ++ " (package " ++ py_str pid ++ ")...")%string in
  (forall e out,
     parse_dat data pid (init []) = Raise e out ->
     main_report filepath data pid (init console) =
     Raise e (console ++ [announce] ++ out)) /\
  (forall r s,
     parse_dat data pid (init []) = Return r s ->
     exists summary,
       main_report filepath data pid (init console) =
       Return r (mkState (offset s) (max_sprite_idx s)
                   (console ++ [announce] ++ stdout s ++ summary)) /\
       (List.length summary <= 28)%nat /\ (output_lines summary <= 32)%nat).
Proof.
  intros announce.
  assert (E : forall o : outcome Package,
            parse_dat data pid (init []) = o ->
            parse_dat data pid (mkState 0 0 (console ++ [announce])) =
            prepend (console ++ [announce]) o).
  { intros o <-.
    replace (mkState 0 0 (console ++ [announce]))
      with (push (console ++ [announce]) (init []))
      by (unfold push, init; cbn; now rewrite app_nil_r).
    apply writes_parse_dat. }
  split.
  - intros e out H. apply E in H.
    unfold main_report, bind, print. cbn [init offset max_sprite_idx stdout].
    fold announce. rewrite H. cbn [prepend].
    now rewrite <- app_assoc.
  - intros r s H. apply E in H.
    destruct (prints_summary r (push (console ++ [announce]) s))
      as (lines & Hs & C & L).
    exists lines. split; [|split; [exact C|exact L]].
    unfold main_report, bind, print. cbn [init offset max_sprite_idx stdout].
    fold announce. rewrite H. cbn [prepend].
    unfold bind in Hs |- *. rewrite Hs.
    unfold ret, push. cbn [offset max_sprite_idx stdout].
    now rewrite <- !app_assoc.
Qed.

Lemma main_report_outcome_witness :
  parse_dat [x00] 7 (init []) = Raise (StructError 2) [] /\
  main_report "a.dat" [x00] 7 (init []) =
    Raise (StructError 2) ["Parsing a.dat (package 7)..."]%string /\
  parse_dat one_layer_file 7 (init []) = Return one_layer_package one_layer_final /\
  exists summary,
    main_report "a.dat" one_layer_file 7 (init []) =
    Return one_layer_package
      (mkState 17 1
         (["Parsing a.dat (package 7)..."; "Num animations: 1";
           "Max sprite index: 1"; "Bytes read: 17, File size: 17"]%string
          ++ summary)) /\
    (List.length summary <= 28)%nat /\ (output_lines summary <= 32)%nat.
Proof.
  assert (H : parse_dat [x00] 7 (init []) = Raise (StructError 2) [])
    by reflexivity.
  split; [exact H|].
  split; [exact (proj1 (main_report_outcome "a.dat" [x00] 7 []) _ _ H)|].
  split; [exact parse_one_layer_file|].
  exact (proj2 (main_report_outcome "a.dat" one_layer_file 7 [])
           _ _ parse_one_layer_file).
Defined.
